(** * shideqin/mongo: a facade over the mgo driver, verified against its specification

    The repository holds two near-duplicate Go packages:
    - [src/mongo.go]: the variant with a package-level sticky error
      ([var connErr error]), embedded below as [Module Global];
    - [src/unnamed/part_000]: the variant whose [Client] struct carries
      its own [connErr] and [host], embedded below as [Module PerClient].

    Both are thin wrappers around [github.com/globalsign/mgo] and its
    [bson] package.  The driver is not part of the repository; it is
    embedded as an interface ([mgo.Call]) answered by an arbitrary handler
    over an arbitrary world, and every call the facade makes is logged. *)

From Stdlib Require Import ZArith Lia String Ascii List Bool.
From stdpp Require Import base option gmap strings list.

Local Open Scope string_scope.
Local Open Scope Z_scope.

(** ** Go values shared by both packages *)

(** A Go [error] is observed through its message only. *)
Definition Error : Type := string.

(** The value carried by a Go [panic]: either a value implementing [error]
    (this includes the runtime errors, such as a nil pointer dereference) or
    a plain string, as in [panic(fmt.Sprintf(...))]. *)
Inductive PanicVal : Type :=
| PVError (e : Error)
| PVString (s : string).

(** What a Go call does: return normally, or unwind with a panic. *)
Inductive outcome (A : Type) : Type :=
| Ret (a : A)
| Panic (p : PanicVal).
Arguments Ret {A} a.
Arguments Panic {A} p.

Definition nil_deref : PanicVal :=
  PVError "runtime error: invalid memory address or nil pointer dereference".

Definition bad_conversion : PanicVal :=
  PVError "interface conversion: interface {} has a different dynamic type".

(** ** Go's [encoding/hex], as used by [bson] *)

Module hex.

Definition byte_val (c : ascii) : Z := Z.of_N (N_of_ascii c).
Definition byte_of (n : Z) : ascii := ascii_of_N (Z.to_N n).

(** [const hextable = "0123456789abcdef"] *)
Definition hextable : string := "0123456789abcdef".

Definition hexchar (n : Z) : ascii :=
  match String.get (Z.to_nat n) hextable with
  | Some c => c
  | None => "0"%char
  end.

(** [dst[j] = hextable[v>>4]; dst[j+1] = hextable[v&0x0f]] *)
Definition hi (v : ascii) : ascii := hexchar (Z.shiftr (byte_val v) 4).
Definition lo (v : ascii) : ascii := hexchar (Z.land (byte_val v) 15).

Fixpoint EncodeToString (src : string) : string :=
  match src with
  | EmptyString => EmptyString
  | String v rest => String (hi v) (String (lo v) (EncodeToString rest))
  end.

(** [fromHexChar]: both letter cases are accepted. *)
Definition fromHexChar (c : ascii) : option Z :=
  let n := byte_val c in
  if (48 <=? n) && (n <=? 57) then Some (n - 48)
  else if (97 <=? n) && (n <=? 102) then Some (n - 97 + 10)
  else if (65 <=? n) && (n <=? 70) then Some (n - 65 + 10)
  else None.

(** One step of [Decode]: [dst[i] = (a << 4) | b]. *)
Definition decode_pair (p q : ascii) : option ascii :=
  match fromHexChar p, fromHexChar q with
  | Some a, Some b => Some (byte_of (Z.lor (Z.shiftl a 4) b))
  | _, _ => None
  end.

(** [DecodeString]: [None] stands for the returned error, whether
    [InvalidByteError] or [ErrLength]; the callers only test [err != nil]. *)
Fixpoint DecodeString (s : string) : option string :=
  match s with
  | EmptyString => Some EmptyString
  | String _ EmptyString => None
  | String p (String q rest) =>
      match decode_pair p q with
      | Some v =>
          match DecodeString rest with
          | Some d => Some (String v d)
          | None => None
          end
      | None => None
      end
  end.

(** The hexadecimal digits, by their character ranges: ['0'..'9'],
    ['a'..'f'] and ['A'..'F']. *)
Definition is_hex_digit (c : ascii) : bool :=
  let n := byte_val c in
  ((48 <=? n) && (n <=? 57)) || ((97 <=? n) && (n <=? 102))
  || ((65 <=? n) && (n <=? 70)).

Definition is_lower_hex_digit (c : ascii) : bool :=
  let n := byte_val c in
  ((48 <=? n) && (n <=? 57)) || ((97 <=? n) && (n <=? 102)).

Fixpoint all_chars (f : ascii -> bool) (s : string) : bool :=
  match s with
  | EmptyString => true
  | String c rest => f c && all_chars f rest
  end.

End hex.

(** ** The identifier functions of [bson] *)

Module bson.

(** [type ObjectId string]: the raw bytes of the identifier. *)
Definition ObjectId : Type := string.

(** Modelled from the spec: [bson.ObjectId.Hex] of the driver package
    [github.com/globalsign/mgo/bson], which is not under src/.  The spec
    gives a deterministic, injective encoding of the 12 bytes into 24
    lowercase hexadecimal characters; the standard hexadecimal encoding of
    the bytes, first the high then the low four bits of each, is taken. *)
Definition Hex (id : ObjectId) : string := hex.EncodeToString id.

(** Modelled from the spec: [bson.IsObjectIdHex] of the driver package,
    which is not under src/.  The spec: true iff the string decodes to
    exactly 12 bytes of hex, never raises; the identifier text is 24
    characters wide. *)
Definition IsObjectIdHex (s : string) : bool :=
  if Nat.eqb (String.length s) 24 then
    match hex.DecodeString s with Some _ => true | None => false end
  else false.

(** Modelled from the spec: [bson.ObjectIdHex] of the driver package,
    which is not under src/.  The spec: fails if the string is not valid
    hex of the correct length, and the reference behaviour on such input
    is to abort, that is, to panic with a string built from the input. *)
Definition ObjectIdHex (s : string) : outcome ObjectId :=
  match hex.DecodeString s with
  | Some d =>
      if Nat.eqb (String.length d) 12 then Ret d
      else Panic (PVString ("invalid input to ObjectIdHex: " +:+ s))
  | None => Panic (PVString ("invalid input to ObjectIdHex: " +:+ s))
  end.

End bson.

(** ** The driver [mgo], as the facade sees it *)

Module mgo.

(** A [*mgo.Session], a [*mgo.Query] and a [*mgo.Pipe] are known by
    identity only; so is the caller's [result] target the driver decodes
    into. *)
Definition Session : Type := N.
Definition Query : Type := N.
Definition Pipe_ : Type := N.
Definition Target : Type := N.

(** The dynamic values an [interface{}] holds in the facade's documents and
    options.  [VSort] is the package's own [type Sort []string], which is a
    different dynamic type from a plain [[]string]. *)
Inductive Value : Type :=
| VNil
| VBool (b : bool)
| VInt (n : Z)
| VInt64 (n : Z)
| VString (s : string)
| VStrings (l : list string)
| VSort (l : list string)
| VObjectId (id : bson.ObjectId).

(** [bson.M], that is [map[string]interface{}]. *)
Abbreviation M := (gmap string Value).

(** [session.DB(database).C(collection)] only builds the handle. *)
Record Collection : Type :=
  { c_session : Session; c_database : string; c_name : string }.

Definition DB_C (s : Session) (database collection : string) : Collection :=
  {| c_session := s; c_database := database; c_name := collection |}.

(** [mgo.ChangeInfo] *)
Record ChangeInfo : Type :=
  { Updated : Z; Removed : Z; Matched : Z; UpsertedId : Value }.

(** [mgo.Change] *)
Record Change : Type :=
  { ch_Update : option M; ch_Upsert : bool; ch_Remove : bool; ch_ReturnNew : bool }.

(** The driver entry points the two packages use, indexed by what each
    returns.  A nil pointer or a nil error is [None]. *)
Inductive Call : Type -> Type :=
| Dial (url : string) : Call (option Session * option Error)
| SetSocketTimeout (s : Session) (d : Z) : Call unit
| Copy (s : Session) : Call Session
| Close (s : Session) : Call unit
| Ping (s : Session) : Call (option Error)
| Find (c : Collection) (query : M) : Call Query
| Select (q : Query) (selector : M) : Call Query
| Sort (q : Query) (fields : list string) : Call Query
| Limit (q : Query) (n : Z) : Call Query
| Skip (q : Query) (n : Z) : Call Query
| One (q : Query) (result : Target) : Call (option Error)
| All (q : Query) (result : Target) : Call (option Error)
| Count (q : Query) : Call (Z * option Error)
| Apply (q : Query) (change : Change) (result : Target)
    : Call (option ChangeInfo * option Error)
| Insert (c : Collection) (docs : list Value) : Call (option Error)
| Update (c : Collection) (selector update : M) : Call (option Error)
| UpdateAll (c : Collection) (selector update : M)
    : Call (option ChangeInfo * option Error)
| Upsert (c : Collection) (selector update : M)
    : Call (option ChangeInfo * option Error)
| Remove (c : Collection) (selector : M) : Call (option Error)
| RemoveAll (c : Collection) (selector : M)
    : Call (option ChangeInfo * option Error)
| Pipe (c : Collection) (pipeline : list M) : Call Pipe_
| PipeOne (p : Pipe_) (result : Target) : Call (option Error)
| PipeAll (p : Pipe_) (result : Target) : Call (option Error).

(** A logged driver call. *)
Definition Event : Type := { R : Type & Call R }.
Definition ev {R : Type} (c : Call R) : Event := existT R c.

(** The driver and the server behind it: any answer, or a panic, to any
    call, with a world of its own that the call may change. *)
Definition Handler (W : Type) : Type :=
  forall R : Type, Call R -> W -> outcome R * W.

End mgo.

(** [time.Hour], in nanoseconds. *)
Definition Hour : Z := 3600000000000.

(** ** Running Go code against the driver *)

(** The state of a run: the driver's world, the log of driver calls made so
    far, and the memory of the package ([Mem] differs between the two
    variants). *)
Record State (W Mem : Type) : Type :=
  { world : W; trace : list mgo.Event; mem : Mem }.
Arguments world {W Mem} _.
Arguments trace {W Mem} _.
Arguments mem {W Mem} _.

Definition Prog (W Mem A : Type) : Type :=
  State W Mem -> outcome A * State W Mem.

Section Prog.
Context {W Mem : Type}.
Variable h : mgo.Handler W.

Definition ret {A} (a : A) : Prog W Mem A := fun st => (Ret a, st).

Definition panic {A} (p : PanicVal) : Prog W Mem A := fun st => (Panic p, st).

Definition bind {A B} (m : Prog W Mem A) (k : A -> Prog W Mem B) : Prog W Mem B :=
  fun st =>
    match m st with
    | (Ret a, st') => k a st'
    | (Panic p, st') => (Panic p, st')
    end.

(** A driver call: logged, then answered by the handler. *)
Definition call {R} (c : mgo.Call R) : Prog W Mem R :=
  fun st =>
    let (r, w') := h R c (world st) in
    (r, {| world := w'; trace := trace st ++ [mgo.ev c]; mem := mem st |}).

(** Following a pointer: a nil one panics. *)
Definition deref {A} (p : option A) : Prog W Mem A :=
  match p with
  | Some a => ret a
  | None => panic nil_deref
  end.

Definition get_mem : Prog W Mem Mem := fun st => (Ret (mem st), st).

Definition set_mem (m : Mem) : Prog W Mem unit :=
  fun st => (Ret tt, {| world := world st; trace := trace st; mem := m |}).

(** [defer d(); body]: [d] runs when [body] returns and when it panics; a
    panic of [body] goes on unwinding after [d], a panic of [d] replaces
    it. *)
Definition defer {A} (d : Prog W Mem unit) (body : Prog W Mem A) : Prog W Mem A :=
  fun st =>
    match body st with
    | (Ret a, st') =>
        match d st' with
        | (Ret _, st'') => (Ret a, st'')
        | (Panic p, st'') => (Panic p, st'')
        end
    | (Panic p, st') =>
        match d st' with
        | (Ret _, st'') => (Panic p, st'')
        | (Panic p', st'') => (Panic p', st'')
        end
    end.

(** [defer func() { if r := recover(); r != nil { }; d() }(); body] in a
    function with unnamed results: a panic of [body] is swallowed by
    [recover], [d] runs, and the function returns the zero values. *)
Definition defer_recover {A} (zero : A) (d : Prog W Mem unit)
    (body : Prog W Mem A) : Prog W Mem A :=
  fun st =>
    match body st with
    | (Ret a, st') =>
        match d st' with
        | (Ret _, st'') => (Ret a, st'')
        | (Panic p, st'') => (Panic p, st'')
        end
    | (Panic _, st') =>
        match d st' with
        | (Ret _, st'') => (Ret zero, st'')
        | (Panic p', st'') => (Panic p', st'')
        end
    end.

End Prog.

Notation "'let*' x ':=' m 'in' k" := (bind m (fun x => k))
  (at level 10, x pattern, m at level 100, k at level 200).

(** ** Go map indexing, interface comparison and type assertions *)

(** [m[k]] on a [map[string]interface{}]: the nil interface when [k] is absent. *)
Definition map_index (m : gmap string mgo.Value) (k : string) : mgo.Value :=
  match m !! k with
  | Some v => v
  | None => mgo.VNil
  end.

(** [v != s] for an interface [v] and a string [s]: equal only when the
    dynamic type of [v] is [string] and the contents agree. *)
Definition neq_string (v : mgo.Value) (s : string) : bool :=
  match v with
  | mgo.VString s' => negb (String.eqb s' s)
  | _ => true
  end.

(** [v.(Sort)] and [v.(int)] in their two-result form. *)
Definition assert_Sort (v : mgo.Value) : option (list string) :=
  match v with
  | mgo.VSort l => Some l
  | _ => None
  end.

Definition assert_int (v : mgo.Value) : option Z :=
  match v with
  | mgo.VInt n => Some n
  | _ => None
  end.

(** [map[string]interface{}{"Matched": ..., "Updated": ..., "UpsertedId": ...}] *)
Definition info_map (info : mgo.ChangeInfo) : gmap string mgo.Value :=
  <["Matched" := mgo.VInt (mgo.Matched info)]>
    (<["Updated" := mgo.VInt (mgo.Updated info)]>
       (<["UpsertedId" := mgo.UpsertedId info]> ∅)).

(** ** [src/mongo.go]: the package with a process-wide sticky error *)

Module Global.

(** [type Client struct { session *mgo.Session }] *)
Record Client : Type := { session : option mgo.Session }.

Section Global.
Context {W : Type}.
Variable h : mgo.Handler W.

(** The memory of the package is [var connErr error]. *)
Local Abbreviation P := (Prog W (option Error)).
Local Abbreviation M := (gmap string mgo.Value).

(** The body of [Conn], up to its [return]. *)
Definition Conn_body (url : string) : P (option Client) :=
  let* r := call h (mgo.Dial url) in
  match snd r with
  | Some err => panic (PVError err)
  | None =>
      let* _ := set_mem None in
      let* s := deref (fst r) in
      let* _ := call h (mgo.SetSocketTimeout s (24 * Hour)) in
      ret (Some {| session := fst r |})
  end.

(** [Conn]: the deferred function recovers a panic, stores it in [connErr]
    through [r.(error)], and [Conn] then returns the nil handle; a panic
    value that is not an [error] makes the assertion itself panic. *)
Definition Conn (url : string) : P (option Client) :=
  fun st =>
    match Conn_body url st with
    | (Ret c, st') => (Ret c, st')
    | (Panic (PVError e), st') =>
        (Ret None, {| world := world st'; trace := trace st'; mem := Some e |})
    | (Panic (PVString _), st') => (Panic bad_conversion, st')
    end.

Definition Ping : P (option Error) := get_mem.

(** [type ObjectID interface{}]; [Hex] asserts [id.(bson.ObjectId)]. *)
Definition Hex (id : mgo.Value) : outcome string :=
  match id with
  | mgo.VObjectId o => Ret (bson.Hex o)
  | _ => Panic bad_conversion
  end.

Definition ObjectIDHex (id : string) : outcome mgo.Value :=
  match bson.ObjectIdHex id with
  | Ret o => Ret (mgo.VObjectId o)
  | Panic p => Panic p
  end.

(** [session := c.session.Copy()] on a handle that may be nil. *)
Definition copy_session (c : option Client) : P mgo.Session :=
  let* cl := deref c in
  let* s := deref (session cl) in
  call h (mgo.Copy s).

Definition GetRow (c : option Client) (database collection : string)
    (query : M) (result : mgo.Target) : P (option Error) :=
  let* connErr := get_mem in
  match connErr with
  | Some _ => ret connErr
  | None =>
      let* session := copy_session c in
      defer (call h (mgo.Close session))
        (let conn := mgo.DB_C session database collection in
         let* q := call h (mgo.Find conn query) in
         call h (mgo.One q result))
  end.

(** The three option blocks of [GetResult]. *)
Definition apply_Sort (find : mgo.Query) (options : M) : P unit :=
  if neq_string (map_index options "Sort") EmptyString then
    match assert_Sort (map_index options "Sort") with
    | Some sort => let* _ := call h (mgo.Sort find sort) in ret tt
    | None => ret tt
    end
  else ret tt.

Definition apply_Limit (find : mgo.Query) (options : M) : P unit :=
  if neq_string (map_index options "Limit") EmptyString then
    match assert_int (map_index options "Limit") with
    | Some limit => let* _ := call h (mgo.Limit find limit) in ret tt
    | None => ret tt
    end
  else ret tt.

Definition apply_Skip (find : mgo.Query) (options : M) : P unit :=
  if neq_string (map_index options "Skip") EmptyString then
    match assert_int (map_index options "Skip") with
    | Some skip => let* _ := call h (mgo.Skip find skip) in ret tt
    | None => ret tt
    end
  else ret tt.

Definition GetResult (c : option Client) (database collection : string)
    (query fields options : M) (result : mgo.Target) : P (option Error) :=
  let* connErr := get_mem in
  match connErr with
  | Some _ => ret connErr
  | None =>
      let* session := copy_session c in
      defer (call h (mgo.Close session))
        (let conn := mgo.DB_C session database collection in
         let* q := call h (mgo.Find conn query) in
         let* find := call h (mgo.Select q fields) in
         let* _ := apply_Sort find options in
         let* _ := apply_Limit find options in
         let* _ := apply_Skip find options in
         call h (mgo.All find result))
  end.

Definition GetCount (c : option Client) (database collection : string)
    (query : M) : P (Z * option Error) :=
  let* connErr := get_mem in
  match connErr with
  | Some _ => ret (0, connErr)
  | None =>
      let* session := copy_session c in
      defer (call h (mgo.Close session))
        (let conn := mgo.DB_C session database collection in
         let* q := call h (mgo.Find conn query) in
         call h (mgo.Count q))
  end.

Definition Insert (c : option Client) (database collection : string)
    (docs : list mgo.Value) : P (option Error) :=
  let* connErr := get_mem in
  match connErr with
  | Some _ => ret connErr
  | None =>
      let* session := copy_session c in
      defer (call h (mgo.Close session))
        (let conn := mgo.DB_C session database collection in
         call h (mgo.Insert conn docs))
  end.

Definition Update (c : option Client) (database collection : string)
    (selector update : M) : P (option Error) :=
  let* connErr := get_mem in
  match connErr with
  | Some _ => ret connErr
  | None =>
      let* session := copy_session c in
      defer (call h (mgo.Close session))
        (let conn := mgo.DB_C session database collection in
         call h (mgo.Update conn selector update))
  end.

Definition UpdateAll (c : option Client) (database collection : string)
    (selector update : M) : P (option M * option Error) :=
  let* connErr := get_mem in
  match connErr with
  | Some _ => ret (Some ∅, connErr)
  | None =>
      let* session := copy_session c in
      defer (call h (mgo.Close session))
        (let conn := mgo.DB_C session database collection in
         let* r := call h (mgo.UpdateAll conn selector update) in
         match snd r with
         | Some err => ret (None, Some err)
         | None =>
             let* info := deref (fst r) in
             ret (Some (info_map info), None)
         end)
  end.

Definition Upsert (c : option Client) (database collection : string)
    (selector update : M) : P (option M * option Error) :=
  let* connErr := get_mem in
  match connErr with
  | Some _ => ret (Some ∅, connErr)
  | None =>
      let* session := copy_session c in
      defer (call h (mgo.Close session))
        (let conn := mgo.DB_C session database collection in
         let* r := call h (mgo.Upsert conn selector update) in
         match snd r with
         | Some err => ret (None, Some err)
         | None =>
             let* info := deref (fst r) in
             ret (Some (info_map info), None)
         end)
  end.

Definition Remove (c : option Client) (database collection : string)
    (selector : M) : P (option Error) :=
  let* connErr := get_mem in
  match connErr with
  | Some _ => ret connErr
  | None =>
      let* session := copy_session c in
      defer (call h (mgo.Close session))
        (let conn := mgo.DB_C session database collection in
         call h (mgo.Remove conn selector))
  end.

(** [var n int; if err == nil { n = info.F }; return n, err] *)
Definition count_of (F : mgo.ChangeInfo -> Z)
    (r : option mgo.ChangeInfo * option Error) : P (Z * option Error) :=
  match snd r with
  | None =>
      let* info := deref (fst r) in
      ret (F info, None)
  | Some err => ret (0, Some err)
  end.

Definition RemoveAll (c : option Client) (database collection : string)
    (selector : M) : P (Z * option Error) :=
  let* connErr := get_mem in
  match connErr with
  | Some _ => ret (0, connErr)
  | None =>
      let* session := copy_session c in
      defer (call h (mgo.Close session))
        (let conn := mgo.DB_C session database collection in
         let* r := call h (mgo.RemoveAll conn selector) in
         count_of mgo.Removed r)
  end.

Definition FindAndModify (c : option Client) (database collection : string)
    (selector update : M) (upsert : bool) (result : mgo.Target)
    : P (Z * option Error) :=
  let* connErr := get_mem in
  match connErr with
  | Some _ => ret (0, connErr)
  | None =>
      let* session := copy_session c in
      defer_recover (0, None) (call h (mgo.Close session))
        (let change := {| mgo.ch_Update := Some update; mgo.ch_Upsert := upsert;
                          mgo.ch_Remove := false; mgo.ch_ReturnNew := true |} in
         let conn := mgo.DB_C session database collection in
         let* q := call h (mgo.Find conn selector) in
         let* r := call h (mgo.Apply q change result) in
         count_of mgo.Updated r)
  end.

Definition FindAndRemove (c : option Client) (database collection : string)
    (selector : M) (result : mgo.Target) : P (Z * option Error) :=
  let* connErr := get_mem in
  match connErr with
  | Some _ => ret (0, connErr)
  | None =>
      let* session := copy_session c in
      defer_recover (0, None) (call h (mgo.Close session))
        (let change := {| mgo.ch_Update := None; mgo.ch_Upsert := false;
                          mgo.ch_Remove := true; mgo.ch_ReturnNew := false |} in
         let conn := mgo.DB_C session database collection in
         let* q := call h (mgo.Find conn selector) in
         let* r := call h (mgo.Apply q change result) in
         count_of mgo.Removed r)
  end.

Definition GetPipeRow (c : option Client) (database collection : string)
    (pipeline : list M) (result : mgo.Target) : P (option Error) :=
  let* connErr := get_mem in
  match connErr with
  | Some _ => ret connErr
  | None =>
      let* session := copy_session c in
      defer_recover None (call h (mgo.Close session))
        (let conn := mgo.DB_C session database collection in
         let* p := call h (mgo.Pipe conn pipeline) in
         call h (mgo.PipeOne p result))
  end.

Definition GetPipeResult (c : option Client) (database collection : string)
    (pipeline : list M) (result : mgo.Target) : P (option Error) :=
  let* connErr := get_mem in
  match connErr with
  | Some _ => ret connErr
  | None =>
      let* session := copy_session c in
      defer_recover None (call h (mgo.Close session))
        (let conn := mgo.DB_C session database collection in
         let* p := call h (mgo.Pipe conn pipeline) in
         call h (mgo.PipeAll p result))
  end.

End Global.
End Global.

(** ** [src/unnamed/part_000]: the package whose handle carries the sticky error *)

(** [net/url]: the part of a [*url.URL] the package reads. *)
Record URL : Type := { Host : string }.

(** [fmt.Errorf("host: %s error: %s", host, err.Error())] *)
Definition wrap_error (host : string) (err : Error) : Error :=
  "host: " +:+ host +:+ " error: " +:+ err.

Module PerClient.

(** [type Client struct { host string; session *mgo.Session; connErr error }] *)
Record Client : Type :=
  { host : string; session : option mgo.Session; connErr : option Error }.

(** [&Client{}] *)
Definition zero_Client : Client :=
  {| host := EmptyString; session := None; connErr := None |}.

Section PerClient.
Context {W : Type}.
Variable h : mgo.Handler W.

(** [url.Parse] of Go's standard library: the parsed URL, nil when the
    address does not parse, and the error. *)
Variable url_Parse : string -> option URL * option Error.

(** The memory of the package is the heap of [Client] structs; a handle
    [*Client] is an address in it, or nil. *)
Local Abbreviation P := (Prog W (list Client)).
Local Abbreviation M := (gmap string mgo.Value).

Definition alloc (c : Client) : P nat :=
  let* heap := get_mem in
  let* _ := set_mem (heap ++ [c])%list in
  ret (length heap).

Definition load (c : option nat) : P Client :=
  let* p := deref c in
  let* heap := get_mem in
  deref (heap !! p).

Definition store (p : nat) (c : Client) : P unit :=
  let* heap := get_mem in
  set_mem (<[p := c]> heap).

Definition Conn (urlAddr : string) : P (option nat) :=
  let* cli := alloc zero_Client in
  let u := fst (url_Parse urlAddr) in
  let* r := call h (mgo.Dial urlAddr) in
  match snd r with
  | Some err =>
      let* u' := deref u in
      let* _ := store cli {| host := EmptyString; session := None;
                             connErr := Some (wrap_error (Host u') err) |} in
      ret (Some cli)
  | None =>
      let* s := deref (fst r) in
      let* _ := call h (mgo.SetSocketTimeout s (24 * Hour)) in
      let* u' := deref u in
      let* _ := store cli {| host := Host u'; session := fst r; connErr := None |} in
      ret (Some cli)
  end.

Definition Hex (oid : bson.ObjectId) : string := bson.Hex oid.

Definition IsObjectIdHex (s : string) : bool := bson.IsObjectIdHex s.

Definition ObjectIDHex (s : string) : outcome bson.ObjectId := bson.ObjectIdHex s.

(** [session := c.session.Copy()] *)
Definition copy_session (cl : Client) : P mgo.Session :=
  let* s := deref (session cl) in
  call h (mgo.Copy s).

Definition Ping (c : option nat) : P (option Error) :=
  let* cl := load c in
  match connErr cl with
  | Some _ => ret (connErr cl)
  | None =>
      let* session := copy_session cl in
      defer (call h (mgo.Close session))
        (let* err := call h (mgo.Ping session) in
         match err with
         | Some e =>
             let* p := deref c in
             let* _ := store p {| host := host cl; session := PerClient.session cl;
                                  connErr := Some (wrap_error (host cl) e) |} in
             let* cl' := load c in
             ret (connErr cl')
         | None =>
             let* cl' := load c in
             ret (connErr cl')
         end)
  end.

Definition GetRow (c : option nat) (database collection : string)
    (query : M) (result : mgo.Target) : P (option Error) :=
  let* cl := load c in
  match connErr cl with
  | Some _ => ret (connErr cl)
  | None =>
      let* session := copy_session cl in
      defer (call h (mgo.Close session))
        (let conn := mgo.DB_C session database collection in
         let* q := call h (mgo.Find conn query) in
         call h (mgo.One q result))
  end.

Definition apply_Sort (find : mgo.Query) (options : M) : P unit :=
  if neq_string (map_index options "Sort") EmptyString then
    match assert_Sort (map_index options "Sort") with
    | Some sort => let* _ := call h (mgo.Sort find sort) in ret tt
    | None => ret tt
    end
  else ret tt.

Definition apply_Limit (find : mgo.Query) (options : M) : P unit :=
  if neq_string (map_index options "Limit") EmptyString then
    match assert_int (map_index options "Limit") with
    | Some limit => let* _ := call h (mgo.Limit find limit) in ret tt
    | None => ret tt
    end
  else ret tt.

Definition apply_Skip (find : mgo.Query) (options : M) : P unit :=
  if neq_string (map_index options "Skip") EmptyString then
    match assert_int (map_index options "Skip") with
    | Some skip => let* _ := call h (mgo.Skip find skip) in ret tt
    | None => ret tt
    end
  else ret tt.

Definition GetResult (c : option nat) (database collection : string)
    (query fields options : M) (result : mgo.Target) : P (option Error) :=
  let* cl := load c in
  match connErr cl with
  | Some _ => ret (connErr cl)
  | None =>
      let* session := copy_session cl in
      defer (call h (mgo.Close session))
        (let conn := mgo.DB_C session database collection in
         let* q := call h (mgo.Find conn query) in
         let* find := call h (mgo.Select q fields) in
         let* _ := apply_Sort find options in
         let* _ := apply_Limit find options in
         let* _ := apply_Skip find options in
         call h (mgo.All find result))
  end.

Definition GetCount (c : option nat) (database collection : string)
    (query : M) : P (Z * option Error) :=
  let* cl := load c in
  match connErr cl with
  | Some _ => ret (0, connErr cl)
  | None =>
      let* session := copy_session cl in
      defer (call h (mgo.Close session))
        (let conn := mgo.DB_C session database collection in
         let* q := call h (mgo.Find conn query) in
         call h (mgo.Count q))
  end.

Definition Insert (c : option nat) (database collection : string)
    (docs : list mgo.Value) : P (option Error) :=
  let* cl := load c in
  match connErr cl with
  | Some _ => ret (connErr cl)
  | None =>
      let* session := copy_session cl in
      defer (call h (mgo.Close session))
        (let conn := mgo.DB_C session database collection in
         call h (mgo.Insert conn docs))
  end.

Definition Update (c : option nat) (database collection : string)
    (selector update : M) : P (option Error) :=
  let* cl := load c in
  match connErr cl with
  | Some _ => ret (connErr cl)
  | None =>
      let* session := copy_session cl in
      defer (call h (mgo.Close session))
        (let conn := mgo.DB_C session database collection in
         call h (mgo.Update conn selector update))
  end.

Definition UpdateAll (c : option nat) (database collection : string)
    (selector update : M) : P (option M * option Error) :=
  let* cl := load c in
  match connErr cl with
  | Some _ => ret (Some ∅, connErr cl)
  | None =>
      let* session := copy_session cl in
      defer (call h (mgo.Close session))
        (let conn := mgo.DB_C session database collection in
         let* r := call h (mgo.UpdateAll conn selector update) in
         match snd r with
         | Some err => ret (None, Some err)
         | None =>
             let* info := deref (fst r) in
             ret (Some (info_map info), None)
         end)
  end.

Definition Upsert (c : option nat) (database collection : string)
    (selector update : M) : P (option M * option Error) :=
  let* cl := load c in
  match connErr cl with
  | Some _ => ret (Some ∅, connErr cl)
  | None =>
      let* session := copy_session cl in
      defer (call h (mgo.Close session))
        (let conn := mgo.DB_C session database collection in
         let* r := call h (mgo.Upsert conn selector update) in
         match snd r with
         | Some err => ret (None, Some err)
         | None =>
             let* info := deref (fst r) in
             ret (Some (info_map info), None)
         end)
  end.

Definition Remove (c : option nat) (database collection : string)
    (selector : M) : P (option Error) :=
  let* cl := load c in
  match connErr cl with
  | Some _ => ret (connErr cl)
  | None =>
      let* session := copy_session cl in
      defer (call h (mgo.Close session))
        (let conn := mgo.DB_C session database collection in
         call h (mgo.Remove conn selector))
  end.

(** [var n int; if err == nil { n = info.F }; return n, err] *)
Definition count_of (F : mgo.ChangeInfo -> Z)
    (r : option mgo.ChangeInfo * option Error) : P (Z * option Error) :=
  match snd r with
  | None =>
      let* info := deref (fst r) in
      ret (F info, None)
  | Some err => ret (0, Some err)
  end.

Definition RemoveAll (c : option nat) (database collection : string)
    (selector : M) : P (Z * option Error) :=
  let* cl := load c in
  match connErr cl with
  | Some _ => ret (0, connErr cl)
  | None =>
      let* session := copy_session cl in
      defer (call h (mgo.Close session))
        (let conn := mgo.DB_C session database collection in
         let* r := call h (mgo.RemoveAll conn selector) in
         count_of mgo.Removed r)
  end.

Definition FindAndModify (c : option nat) (database collection : string)
    (selector update : M) (upsert : bool) (result : mgo.Target)
    : P (Z * option Error) :=
  let* cl := load c in
  match connErr cl with
  | Some _ => ret (0, connErr cl)
  | None =>
      let* session := copy_session cl in
      defer (call h (mgo.Close session))
        (let change := {| mgo.ch_Update := Some update; mgo.ch_Upsert := upsert;
                          mgo.ch_Remove := false; mgo.ch_ReturnNew := true |} in
         let conn := mgo.DB_C session database collection in
         let* q := call h (mgo.Find conn selector) in
         let* r := call h (mgo.Apply q change result) in
         count_of mgo.Updated r)
  end.

Definition FindAndRemove (c : option nat) (database collection : string)
    (selector : M) (result : mgo.Target) : P (Z * option Error) :=
  let* cl := load c in
  match connErr cl with
  | Some _ => ret (0, connErr cl)
  | None =>
      let* session := copy_session cl in
      defer (call h (mgo.Close session))
        (let change := {| mgo.ch_Update := None; mgo.ch_Upsert := false;
                          mgo.ch_Remove := true; mgo.ch_ReturnNew := false |} in
         let conn := mgo.DB_C session database collection in
         let* q := call h (mgo.Find conn selector) in
         let* r := call h (mgo.Apply q change result) in
         count_of mgo.Removed r)
  end.

Definition GetPipeRow (c : option nat) (database collection : string)
    (pipeline : list M) (result : mgo.Target) : P (option Error) :=
  let* cl := load c in
  match connErr cl with
  | Some _ => ret (connErr cl)
  | None =>
      let* session := copy_session cl in
      defer (call h (mgo.Close session))
        (let conn := mgo.DB_C session database collection in
         let* p := call h (mgo.Pipe conn pipeline) in
         call h (mgo.PipeOne p result))
  end.

Definition GetPipeResult (c : option nat) (database collection : string)
    (pipeline : list M) (result : mgo.Target) : P (option Error) :=
  let* cl := load c in
  match connErr cl with
  | Some _ => ret (connErr cl)
  | None =>
      let* session := copy_session cl in
      defer (call h (mgo.Close session))
        (let conn := mgo.DB_C session database collection in
         let* p := call h (mgo.Pipe conn pipeline) in
         call h (mgo.PipeAll p result))
  end.

End PerClient.
End PerClient.

(** ** The facade surface: the thirteen methods both packages export *)

Inductive Op : Type :=
| OpGetRow (database collection : string) (query : gmap string mgo.Value)
    (result : mgo.Target)
| OpGetResult (database collection : string)
    (query fields options : gmap string mgo.Value) (result : mgo.Target)
| OpGetCount (database collection : string) (query : gmap string mgo.Value)
| OpInsert (database collection : string) (docs : list mgo.Value)
| OpUpdate (database collection : string) (selector update : gmap string mgo.Value)
| OpUpdateAll (database collection : string) (selector update : gmap string mgo.Value)
| OpUpsert (database collection : string) (selector update : gmap string mgo.Value)
| OpRemove (database collection : string) (selector : gmap string mgo.Value)
| OpRemoveAll (database collection : string) (selector : gmap string mgo.Value)
| OpFindAndModify (database collection : string)
    (selector update : gmap string mgo.Value) (upsert : bool) (result : mgo.Target)
| OpFindAndRemove (database collection : string)
    (selector : gmap string mgo.Value) (result : mgo.Target)
| OpGetPipeRow (database collection : string)
    (pipeline : list (gmap string mgo.Value)) (result : mgo.Target)
| OpGetPipeResult (database collection : string)
    (pipeline : list (gmap string mgo.Value)) (result : mgo.Target).

(** The three return shapes: [error], [(int, error)] and
    [(map[string]interface{}, error)], a nil map being [None]. *)
Inductive Result : Type :=
| RError (err : option Error)
| RCount (n : Z) (err : option Error)
| RMap (m : option (gmap string mgo.Value)) (err : option Error).

Definition of_count (r : Z * option Error) : Result := RCount (fst r) (snd r).
Definition of_map (r : option (gmap string mgo.Value) * option Error) : Result :=
  RMap (fst r) (snd r).

Definition fmap_prog {W Mem A B} (f : A -> B) (m : Prog W Mem A) : Prog W Mem B :=
  let* a := m in ret (f a).

Definition Global_run {W} (h : mgo.Handler W) (c : option Global.Client) (op : Op)
    : Prog W (option Error) Result :=
  match op with
  | OpGetRow d k q r => fmap_prog RError (Global.GetRow h c d k q r)
  | OpGetResult d k q f o r => fmap_prog RError (Global.GetResult h c d k q f o r)
  | OpGetCount d k q => fmap_prog of_count (Global.GetCount h c d k q)
  | OpInsert d k docs => fmap_prog RError (Global.Insert h c d k docs)
  | OpUpdate d k s u => fmap_prog RError (Global.Update h c d k s u)
  | OpUpdateAll d k s u => fmap_prog of_map (Global.UpdateAll h c d k s u)
  | OpUpsert d k s u => fmap_prog of_map (Global.Upsert h c d k s u)
  | OpRemove d k s => fmap_prog RError (Global.Remove h c d k s)
  | OpRemoveAll d k s => fmap_prog of_count (Global.RemoveAll h c d k s)
  | OpFindAndModify d k s u b r =>
      fmap_prog of_count (Global.FindAndModify h c d k s u b r)
  | OpFindAndRemove d k s r => fmap_prog of_count (Global.FindAndRemove h c d k s r)
  | OpGetPipeRow d k p r => fmap_prog RError (Global.GetPipeRow h c d k p r)
  | OpGetPipeResult d k p r => fmap_prog RError (Global.GetPipeResult h c d k p r)
  end.

Definition PerClient_run {W} (h : mgo.Handler W) (c : option nat) (op : Op)
    : Prog W (list PerClient.Client) Result :=
  match op with
  | OpGetRow d k q r => fmap_prog RError (PerClient.GetRow h c d k q r)
  | OpGetResult d k q f o r => fmap_prog RError (PerClient.GetResult h c d k q f o r)
  | OpGetCount d k q => fmap_prog of_count (PerClient.GetCount h c d k q)
  | OpInsert d k docs => fmap_prog RError (PerClient.Insert h c d k docs)
  | OpUpdate d k s u => fmap_prog RError (PerClient.Update h c d k s u)
  | OpUpdateAll d k s u => fmap_prog of_map (PerClient.UpdateAll h c d k s u)
  | OpUpsert d k s u => fmap_prog of_map (PerClient.Upsert h c d k s u)
  | OpRemove d k s => fmap_prog RError (PerClient.Remove h c d k s)
  | OpRemoveAll d k s => fmap_prog of_count (PerClient.RemoveAll h c d k s)
  | OpFindAndModify d k s u b r =>
      fmap_prog of_count (PerClient.FindAndModify h c d k s u b r)
  | OpFindAndRemove d k s r =>
      fmap_prog of_count (PerClient.FindAndRemove h c d k s r)
  | OpGetPipeRow d k p r => fmap_prog RError (PerClient.GetPipeRow h c d k p r)
  | OpGetPipeResult d k p r => fmap_prog RError (PerClient.GetPipeResult h c d k p r)
  end.

(** A sequence of facade calls on one handle, results in order. *)
Fixpoint run_seq {W Mem} (run : Op -> Prog W Mem Result) (ops : list Op)
    : Prog W Mem (list Result) :=
  match ops with
  | [] => ret []
  | op :: ops' =>
      let* r := run op in
      let* rs := run_seq run ops' in
      ret (r :: rs)
  end.

(** Go's zero value of each return shape, next to a given error: no value,
    [0], and the nil map. *)
Definition zero_result (op : Op) (err : option Error) : Result :=
  match op with
  | OpGetCount _ _ _ | OpRemoveAll _ _ _
  | OpFindAndModify _ _ _ _ _ _ | OpFindAndRemove _ _ _ _ => RCount 0 err
  | OpUpdateAll _ _ _ _ | OpUpsert _ _ _ _ => RMap None err
  | _ => RError err
  end.

(** What the methods return when the sticky error is set: as
    [zero_result], except that [UpdateAll] and [Upsert] return the empty
    map literal [map[string]interface{}{}], which is not nil. *)
Definition short_circuit_result (op : Op) (err : option Error) : Result :=
  match op with
  | OpUpdateAll _ _ _ _ | OpUpsert _ _ _ _ => RMap (Some ∅) err
  | _ => zero_result op err
  end.

(** The four methods whose deferred function calls [recover] in
    [src/mongo.go]. *)
Definition recovers (op : Op) : bool :=
  match op with
  | OpFindAndModify _ _ _ _ _ _ | OpFindAndRemove _ _ _ _
  | OpGetPipeRow _ _ _ _ | OpGetPipeResult _ _ _ _ => true
  | _ => false
  end.

(** ** Sample drivers and inputs *)

(** A scripted driver over a trivial world: [Dial] and [Ping] fail as the
    script says, every query or mutation returns [op_err], and, when the
    script is [strict] as [mgo.Iter.All] is, [All] and [PipeAll] panic on a
    result target that is the nil pointer (target [0]). *)
Record Script : Type :=
  { dial_err : option Error; ping_err : option Error; op_err : option Error;
    strict : bool }.

Definition sample_info : mgo.ChangeInfo :=
  {| mgo.Updated := 2; mgo.Removed := 3; mgo.Matched := 2; mgo.UpsertedId := mgo.VNil |}.

Definition change_answer (sc : Script) : option mgo.ChangeInfo * option Error :=
  match op_err sc with
  | Some e => (None, Some e)
  | None => (Some sample_info, None)
  end.

Definition all_answer (sc : Script) (result : mgo.Target) : outcome (option Error) :=
  if strict sc && N.eqb result 0
  then Panic (PVString "result argument must be a slice address")
  else Ret (op_err sc).

Definition scripted (sc : Script) : mgo.Handler unit :=
  fun R c w =>
    (match c in mgo.Call R return outcome R with
     | mgo.Dial _ =>
         match dial_err sc with
         | Some e => Ret (None, Some e)
         | None => Ret (Some 1%N, None)
         end
     | mgo.SetSocketTimeout _ _ => Ret tt
     | mgo.Copy s => Ret (s + 1)%N
     | mgo.Close _ => Ret tt
     | mgo.Ping _ => Ret (ping_err sc)
     | mgo.Find _ _ => Ret 7%N
     | mgo.Select q _ => Ret q
     | mgo.Sort q _ => Ret q
     | mgo.Limit q _ => Ret q
     | mgo.Skip q _ => Ret q
     | mgo.One _ _ => Ret (op_err sc)
     | mgo.All _ result => all_answer sc result
     | mgo.Count _ => Ret (match op_err sc with Some _ => 0 | None => 5 end, op_err sc)
     | mgo.Apply _ _ _ => Ret (change_answer sc)
     | mgo.Insert _ _ => Ret (op_err sc)
     | mgo.Update _ _ _ => Ret (op_err sc)
     | mgo.UpdateAll _ _ _ => Ret (change_answer sc)
     | mgo.Upsert _ _ _ => Ret (change_answer sc)
     | mgo.Remove _ _ => Ret (op_err sc)
     | mgo.RemoveAll _ _ => Ret (change_answer sc)
     | mgo.Pipe _ _ => Ret 9%N
     | mgo.PipeOne _ _ => Ret (op_err sc)
     | mgo.PipeAll _ result => all_answer sc result
     end, w).

Definition up : Script :=
  {| dial_err := None; ping_err := None; op_err := None; strict := true |}.

Definition lenient : Script :=
  {| dial_err := None; ping_err := None; op_err := None; strict := false |}.

Definition down : Script :=
  {| dial_err := Some "no reachable servers";
     ping_err := Some "no reachable servers";
     op_err := Some "no reachable servers"; strict := true |}.

Definition failing : Script :=
  {| dial_err := None; ping_err := Some "EOF"; op_err := Some "EOF";
     strict := true |}.

(** [url.Parse] on the sample addresses: a [mongodb://] URL parses and has
    its host; an address without a scheme whose first path segment holds a
    colon, such as the ["127.0.0.1:27017"] of [src/example/main.go], is
    rejected with a nil URL. *)
Definition sample_url_Parse (s : string) : option URL * option Error :=
  if String.eqb s "mongodb://db.example.org:27017/app" then
    (Some {| Host := "db.example.org:27017" |}, None)
  else
    (None, Some ("parse " +:+ s +:+ ": first path segment in URL cannot contain colon")).

Definition start {Mem} (m : Mem) : State unit Mem :=
  {| world := tt; trace := []; mem := m |}.

(** A handle whose connect step failed, and a connected one, at addresses 0
    and 1 of the heap. *)
Definition sample_heap : list PerClient.Client :=
  [ {| PerClient.host := EmptyString; PerClient.session := None;
       PerClient.connErr := Some "host: db.example.org:27017 error: no reachable servers" |};
    {| PerClient.host := "db.example.org:27017"; PerClient.session := Some 1%N;
       PerClient.connErr := None |} ].

Definition sample_ops : list Op :=
  [ OpGetRow "app" "users" ∅ 1%N;
    OpGetResult "app" "users" ∅ ∅ ∅ 1%N;
    OpGetCount "app" "users" ∅;
    OpInsert "app" "users" [mgo.VInt 1];
    OpUpdate "app" "users" ∅ ∅;
    OpUpdateAll "app" "users" ∅ ∅;
    OpUpsert "app" "users" ∅ ∅;
    OpRemove "app" "users" ∅;
    OpRemoveAll "app" "users" ∅;
    OpFindAndModify "app" "users" ∅ ∅ true 1%N;
    OpFindAndRemove "app" "users" ∅ 1%N;
    OpGetPipeRow "app" "users" [] 1%N;
    OpGetPipeResult "app" "users" [] 1%N ].

(** The options of the spec's example, [{Sort: ["-age"], Limit: 2, Skip: 1}],
    and a mistyped variant: a plain [[]string], a string and an [int64]. *)
Definition sample_options : gmap string mgo.Value :=
  <["Sort" := mgo.VSort ["-age"]]>
    (<["Limit" := mgo.VInt 2]> (<["Skip" := mgo.VInt 1]> ∅)).

Definition mistyped_options : gmap string mgo.Value :=
  <["Sort" := mgo.VStrings ["-age"]]>
    (<["Limit" := mgo.VString "2"]> (<["Skip" := mgo.VInt64 1]> ∅)).

(** ** Relating the two packages *)

(** A run of [src/mongo.go] and a run of the per-client package stand in the
    same situation: the same driver world and log, the same session behind
    the two handles, and the same sticky error, process-wide in one and on
    the handle in the other. *)
Definition same_situation {W} (stG : State W (option Error))
    (cG : option Global.Client) (stP : State W (list PerClient.Client))
    (p : nat) : Prop :=
  exists cl,
    mem stP !! p = Some cl /\
    mem stG = PerClient.connErr cl /\
    cG = Some {| Global.session := PerClient.session cl |} /\
    world stG = world stP /\
    trace stG = trace stP.

(** ** Options, as the specification words them *)





(** A driver none of whose calls panics. *)
Definition never_panics {W} (h : mgo.Handler W) : Prop :=
  forall R (c : mgo.Call R) (w : W), exists r, fst (h R c w) = Ret r.

(** ** The two updating methods *)

(** [UpdateAll] or [Upsert] as a facade operation, and the driver call each
    one makes. *)
Definition update_op (upsert : bool) (database collection : string)
    (selector update : gmap string mgo.Value) : Op :=
  if upsert then OpUpsert database collection selector update
  else OpUpdateAll database collection selector update.

Definition update_call (upsert : bool) (c : mgo.Collection)
    (selector update : gmap string mgo.Value)
    : mgo.Call (option mgo.ChangeInfo * option Error) :=
  if upsert then mgo.Upsert c selector update
  else mgo.UpdateAll c selector update.

(** The keys of the map returned on success. *)
Definition info_keys : gset string := {[ "Matched"; "Updated"; "UpsertedId" ]}.

(** The three counting methods, with the driver field each one reports. *)
Definition counting (op : Op) : bool :=
  match op with
  | OpRemoveAll _ _ _ | OpFindAndModify _ _ _ _ _ _ | OpFindAndRemove _ _ _ _ => true
  | _ => false
  end.

(** ** Reading the log of driver calls *)

(** The events a run added to the log. *)
Definition new_events {W Mem} (st st' : State W Mem) : list mgo.Event :=
  drop (length (trace st)) (trace st').

(** [Copy] and [Close], the two calls that open and release a session copy. *)
Definition session_call (e : mgo.Event) : bool :=
  match projT2 e with
  | mgo.Copy _ | mgo.Close _ => true
  | _ => false
  end.

(** The calls that go to the server for a query or a mutation, one per
    facade method. *)
Definition terminal (e : mgo.Event) : bool :=
  match projT2 e with
  | mgo.One _ _ | mgo.All _ _ | mgo.Count _ | mgo.Apply _ _ _
  | mgo.Insert _ _ | mgo.Update _ _ _ | mgo.UpdateAll _ _ _ | mgo.Upsert _ _ _
  | mgo.Remove _ _ | mgo.RemoveAll _ _ | mgo.PipeOne _ _ | mgo.PipeAll _ _ => true
  | _ => false
  end.

(** The server call that belongs to each facade method. *)
Definition terminal_of (op : Op) (e : mgo.Event) : bool :=
  match op, projT2 e with
  | OpGetRow _ _ _ _, mgo.One _ _ => true
  | OpGetResult _ _ _ _ _ _, mgo.All _ _ => true
  | OpGetCount _ _ _, mgo.Count _ => true
  | OpInsert _ _ _, mgo.Insert _ _ => true
  | OpUpdate _ _ _ _, mgo.Update _ _ _ => true
  | OpUpdateAll _ _ _ _, mgo.UpdateAll _ _ _ => true
  | OpUpsert _ _ _ _, mgo.Upsert _ _ _ => true
  | OpRemove _ _ _, mgo.Remove _ _ => true
  | OpRemoveAll _ _ _, mgo.RemoveAll _ _ => true
  | OpFindAndModify _ _ _ _ _ _, mgo.Apply _ _ _ => true
  | OpFindAndRemove _ _ _ _, mgo.Apply _ _ _ => true
  | OpGetPipeRow _ _ _ _, mgo.PipeOne _ _ => true
  | OpGetPipeResult _ _ _ _, mgo.PipeAll _ _ => true
  | _, _ => false
  end.

(** The error in the answer of a driver call, for the calls that return one. *)
Definition err_of {R} (c : mgo.Call R) : R -> option Error :=
  match c in mgo.Call R return R -> option Error with
  | mgo.Dial _ => snd
  | mgo.Ping _ => fun r => r
  | mgo.One _ _ => fun r => r
  | mgo.All _ _ => fun r => r
  | mgo.Count _ => snd
  | mgo.Apply _ _ _ => snd
  | mgo.Insert _ _ => fun r => r
  | mgo.Update _ _ _ => fun r => r
  | mgo.UpdateAll _ _ _ => snd
  | mgo.Upsert _ _ _ => snd
  | mgo.Remove _ _ => fun r => r
  | mgo.RemoveAll _ _ => snd
  | mgo.PipeOne _ _ => fun r => r
  | mgo.PipeAll _ _ => fun r => r
  | _ => fun _ => None
  end.

(** The error a facade result carries. *)
Definition result_err (r : Result) : option Error :=
  match r with
  | RError e => e
  | RCount _ e => e
  | RMap _ e => e
  end.

(** The field of [mgo.ChangeInfo] each counting method reports, and the
    [mgo.Change] each find-and-apply method asks for. *)
Definition count_field (op : Op) : mgo.ChangeInfo -> Z :=
  match op with
  | OpRemoveAll _ _ _ => mgo.Removed
  | OpFindAndModify _ _ _ _ _ _ => mgo.Updated
  | OpFindAndRemove _ _ _ _ => mgo.Removed
  | _ => fun _ => 0
  end.

Definition change_of (op : Op) : option mgo.Change :=
  match op with
  | OpFindAndModify _ _ _ update upsert _ =>
      Some {| mgo.ch_Update := Some update; mgo.ch_Upsert := upsert;
              mgo.ch_Remove := false; mgo.ch_ReturnNew := true |}
  | OpFindAndRemove _ _ _ _ =>
      Some {| mgo.ch_Update := None; mgo.ch_Upsert := false;
              mgo.ch_Remove := true; mgo.ch_ReturnNew := false |}
  | _ => None
  end.

Definition apply_change {R} (c : mgo.Call R) : option mgo.Change :=
  match c with
  | mgo.Apply _ change _ => Some change
  | _ => None
  end.

(** ** The body of a facade method *)

(** What each per-client method runs between obtaining the session copy
    (whose release is deferred) and its return: the driver calls on the
    copy and the shaping of the result. *)
Definition PerClient_body {W} (h : mgo.Handler W) (op : Op)
    (session : mgo.Session) : Prog W (list PerClient.Client) Result :=
  match op with
  | OpGetRow d k query result =>
      fmap_prog RError
        (let* q := call h (mgo.Find (mgo.DB_C session d k) query) in
         call h (mgo.One q result))
  | OpGetResult d k query fields options result =>
      fmap_prog RError
        (let* q := call h (mgo.Find (mgo.DB_C session d k) query) in
         let* find := call h (mgo.Select q fields) in
         let* _ := PerClient.apply_Sort h find options in
         let* _ := PerClient.apply_Limit h find options in
         let* _ := PerClient.apply_Skip h find options in
         call h (mgo.All find result))
  | OpGetCount d k query =>
      fmap_prog of_count
        (let* q := call h (mgo.Find (mgo.DB_C session d k) query) in
         call h (mgo.Count q))
  | OpInsert d k docs =>
      fmap_prog RError (call h (mgo.Insert (mgo.DB_C session d k) docs))
  | OpUpdate d k selector update =>
      fmap_prog RError (call h (mgo.Update (mgo.DB_C session d k) selector update))
  | OpUpdateAll d k selector update =>
      fmap_prog of_map
        (let* r := call h (mgo.UpdateAll (mgo.DB_C session d k) selector update) in
         match snd r with
         | Some err => ret (None, Some err)
         | None =>
             let* info := deref (fst r) in
             ret (Some (info_map info), None)
         end)
  | OpUpsert d k selector update =>
      fmap_prog of_map
        (let* r := call h (mgo.Upsert (mgo.DB_C session d k) selector update) in
         match snd r with
         | Some err => ret (None, Some err)
         | None =>
             let* info := deref (fst r) in
             ret (Some (info_map info), None)
         end)
  | OpRemove d k selector =>
      fmap_prog RError (call h (mgo.Remove (mgo.DB_C session d k) selector))
  | OpRemoveAll d k selector =>
      fmap_prog of_count
        (let* r := call h (mgo.RemoveAll (mgo.DB_C session d k) selector) in
         PerClient.count_of mgo.Removed r)
  | OpFindAndModify d k selector update upsert result =>
      fmap_prog of_count
        (let change := {| mgo.ch_Update := Some update; mgo.ch_Upsert := upsert;
                          mgo.ch_Remove := false; mgo.ch_ReturnNew := true |} in
         let* q := call h (mgo.Find (mgo.DB_C session d k) selector) in
         let* r := call h (mgo.Apply q change result) in
         PerClient.count_of mgo.Updated r)
  | OpFindAndRemove d k selector result =>
      fmap_prog of_count
        (let change := {| mgo.ch_Update := None; mgo.ch_Upsert := false;
                          mgo.ch_Remove := true; mgo.ch_ReturnNew := false |} in
         let* q := call h (mgo.Find (mgo.DB_C session d k) selector) in
         let* r := call h (mgo.Apply q change result) in
         PerClient.count_of mgo.Removed r)
  | OpGetPipeRow d k pipeline result =>
      fmap_prog RError
        (let* p := call h (mgo.Pipe (mgo.DB_C session d k) pipeline) in
         call h (mgo.PipeOne p result))
  | OpGetPipeResult d k pipeline result =>
      fmap_prog RError
        (let* p := call h (mgo.Pipe (mgo.DB_C session d k) pipeline) in
         call h (mgo.PipeAll p result))
  end.


(** * Properties *)

(** ** Hexadecimal encoding *)

Lemma byte_round (c : ascii) : hex.decode_pair (hex.hi c) (hex.lo c) = Some c.
Proof.
  destruct c as [b0 b1 b2 b3 b4 b5 b6 b7].
  destruct b0, b1, b2, b3, b4, b5, b6, b7; reflexivity.
Qed.

Lemma hi_lo_lower (c : ascii) :
  hex.is_lower_hex_digit (hex.hi c) = true /\ hex.is_lower_hex_digit (hex.lo c) = true.
Proof.
  destruct c as [b0 b1 b2 b3 b4 b5 b6 b7].
  destruct b0, b1, b2, b3, b4, b5, b6, b7; split; reflexivity.
Qed.

Lemma decode_encode (s : string) :
  hex.DecodeString (hex.EncodeToString s) = Some s.
Proof.
  induction s as [|c s IH]; [reflexivity|].
  cbn [hex.EncodeToString hex.DecodeString].
  now rewrite byte_round, IH.
Qed.

Lemma encode_length (s : string) :
  String.length (hex.EncodeToString s) = (2 * String.length s)%nat.
Proof.
  induction s as [|c s IH]; [reflexivity|].
  cbn [hex.EncodeToString String.length]. rewrite IH. lia.
Qed.

Lemma encode_lower (s : string) :
  hex.all_chars hex.is_lower_hex_digit (hex.EncodeToString s) = true.
Proof.
  induction s as [|c s IH]; [reflexivity|].
  cbn [hex.EncodeToString hex.all_chars].
  destruct (hi_lo_lower c) as [-> ->]. exact IH.
Qed.

Lemma encode_inj (s t : string) :
  hex.EncodeToString s = hex.EncodeToString t -> s = t.
Proof.
  intros E. apply (f_equal hex.DecodeString) in E.
  rewrite !decode_encode in E. congruence.
Qed.

(** Induction two characters at a time, the way [Decode] walks its input. *)
Lemma string_pair_ind (P : string -> Prop) :
  P EmptyString ->
  (forall c, P (String c EmptyString)) ->
  (forall p q rest, P rest -> P (String p (String q rest))) ->
  forall s, P s.
Proof.
  intros H0 H1 H2 s.
  assert (H : P s /\ forall c, P (String c s)).
  { induction s as [|a s [IHs IHc]]; [now split|].
    split; [apply IHc|]. intros c. now apply H2. }
  apply H.
Qed.

(** The decoder reads a character exactly when it is a hexadecimal digit,
    of either letter case, and nothing else. *)
Lemma fromHexChar_digit (c : ascii) :
  (exists v, hex.fromHexChar c = Some v) <-> hex.is_hex_digit c = true.
Proof.
  destruct c as [b0 b1 b2 b3 b4 b5 b6 b7].
  destruct b0, b1, b2, b3, b4, b5, b6, b7; split;
    solve [ intros _; reflexivity
          | intros _; eexists; reflexivity
          | intros [v Hv]; discriminate Hv
          | intros H; discriminate H ].
Qed.

Lemma decode_pair_hex (p q : ascii) :
  (exists v, hex.decode_pair p q = Some v) <->
  hex.is_hex_digit p = true /\ hex.is_hex_digit q = true.
Proof.
  rewrite <- !fromHexChar_digit. unfold hex.decode_pair.
  destruct (hex.fromHexChar p), (hex.fromHexChar q); split;
    try (intros [v Hv]; discriminate);
    try (intros [[? ?] [? ?]]; discriminate);
    eauto.
Qed.

Lemma decode_some (s d : string) :
  hex.DecodeString s = Some d ->
  String.length s = (2 * String.length d)%nat /\
  hex.all_chars hex.is_hex_digit s = true.
Proof.
  revert d. induction s as [| c | p q rest IH] using string_pair_ind; intros d H.
  - injection H as <-. now split.
  - discriminate.
  - cbn [hex.DecodeString] in H.
    destruct (hex.decode_pair p q) as [v|] eqn:Epq; [|discriminate].
    destruct (hex.DecodeString rest) as [d'|] eqn:Er; [|discriminate].
    injection H as <-.
    destruct (IH d' eq_refl) as [Hl Ha].
    destruct (proj1 (decode_pair_hex p q) (ex_intro _ v Epq)) as [Hp Hq].
    cbn [String.length hex.all_chars]. rewrite Hp, Hq, Ha, Hl. split; [lia|reflexivity].
Qed.

Lemma decode_total (s : string) :
  Nat.even (String.length s) = true ->
  hex.all_chars hex.is_hex_digit s = true ->
  exists d, hex.DecodeString s = Some d.
Proof.
  induction s as [| c | p q rest IH] using string_pair_ind; intros He Ha.
  - now exists EmptyString.
  - discriminate.
  - cbn [hex.all_chars] in Ha.
    apply andb_true_iff in Ha as [Hp Ha]. apply andb_true_iff in Ha as [Hq Ha].
    destruct (proj2 (decode_pair_hex p q) (conj Hp Hq)) as [v Hv].
    destruct (IH He Ha) as [d Hd].
    exists (String v d). cbn [hex.DecodeString]. now rewrite Hv, Hd.
Qed.

(** ** Identifier utilities *)

(** C3: for every 12-byte identifier [id], parsing the hexadecimal rendering
    of [id] gives [id] back ([ObjectIDHex (Hex id)] returns [id], in both
    packages), the rendering has 24 characters, all of them lowercase
    hexadecimal digits, and [Hex] is injective. *)
Theorem hex_round_trip (id id' : bson.ObjectId) :
  String.length id = 12%nat ->
  PerClient.ObjectIDHex (PerClient.Hex id) = Ret id /\
  (exists s, Global.Hex (mgo.VObjectId id) = Ret s /\
             Global.ObjectIDHex s = Ret (mgo.VObjectId id)) /\
  String.length (PerClient.Hex id) = 24%nat /\
  hex.all_chars hex.is_lower_hex_digit (PerClient.Hex id) = true /\
  (PerClient.Hex id = PerClient.Hex id' -> id = id').
Proof.
  intros Hlen.
  assert (R : bson.ObjectIdHex (bson.Hex id) = Ret id).
  { unfold bson.ObjectIdHex, bson.Hex. rewrite decode_encode, Hlen. reflexivity. }
  repeat split.
  - exact R.
  - exists (bson.Hex id). split; [reflexivity|].
    unfold Global.ObjectIDHex. now rewrite R.
  - unfold PerClient.Hex, bson.Hex. rewrite encode_length, Hlen. reflexivity.
  - apply encode_lower.
  - apply encode_inj.
Qed.

Lemma hex_round_trip_witness :
  PerClient.Hex "abcdefghijkl" = "6162636465666768696a6b6c" /\
  PerClient.ObjectIDHex (PerClient.Hex "abcdefghijkl") = Ret "abcdefghijkl".
Proof.
  split; [reflexivity|].
  exact (proj1 (hex_round_trip "abcdefghijkl" EmptyString eq_refl)).
Defined.

(** C4: [IsObjectIdHex s] is true exactly when [s] has length 24, consists
    of hexadecimal digits only (['0'..'9'], ['a'..'f'], ['A'..'F'], read off
    the character ranges and not off the decoder) and [ObjectIDHex s]
    returns an identifier.  The last condition follows from the first two:
    [IsObjectIdHex s] is true exactly when [s] is 24 hexadecimal digits.
    The function is total: it yields a boolean on every string. *)
Theorem IsObjectIdHex_iff (s : string) :
  (PerClient.IsObjectIdHex s = true <->
   String.length s = 24%nat /\
   hex.all_chars hex.is_hex_digit s = true /\
   exists id, PerClient.ObjectIDHex s = Ret id) /\
  (PerClient.IsObjectIdHex s = true <->
   String.length s = 24%nat /\ hex.all_chars hex.is_hex_digit s = true).
Proof.
  unfold PerClient.IsObjectIdHex, PerClient.ObjectIDHex,
    bson.IsObjectIdHex, bson.ObjectIdHex.
  assert (Fwd : (if Nat.eqb (String.length s) 24
                 then match hex.DecodeString s with Some _ => true | None => false end
                 else false) = true ->
                String.length s = 24%nat /\
                hex.all_chars hex.is_hex_digit s = true /\
                exists id,
                  match hex.DecodeString s with
                  | Some d =>
                      if Nat.eqb (String.length d) 12 then Ret d
                      else Panic (PVString ("invalid input to ObjectIdHex: " +:+ s))
                  | None => Panic (PVString ("invalid input to ObjectIdHex: " +:+ s))
                  end = Ret id).
  { destruct (Nat.eqb (String.length s) 24) eqn:El; [|discriminate].
    apply Nat.eqb_eq in El.
    destruct (hex.DecodeString s) as [d|] eqn:Ed; [|discriminate].
    intros _. destruct (decode_some s d Ed) as [Hl Ha].
    repeat split; [exact El|exact Ha|].
    exists d. replace (String.length d) with 12%nat by lia. reflexivity. }
  assert (Bwd : String.length s = 24%nat ->
                hex.all_chars hex.is_hex_digit s = true ->
                (if Nat.eqb (String.length s) 24
                 then match hex.DecodeString s with Some _ => true | None => false end
                 else false) = true).
  { intros El Ha.
    destruct (decode_total s) as [d Hd]; [now rewrite El|exact Ha|].
    now rewrite El, Hd. }
  split; split.
  - exact Fwd.
  - intros (El & Ha & _). now apply Bwd.
  - intros H. destruct (Fwd H) as (El & Ha & _). now split.
  - intros [El Ha]. now apply Bwd.
Qed.

(** Upper-case and mixed-case identifiers are valid; a letter beyond [f]
    is not. *)
Example IsObjectIdHex_letter_case :
  PerClient.IsObjectIdHex "507F1F77BCF86CD799439011" = true /\
  PerClient.IsObjectIdHex "507f1F77bcf86cD799439011" = true /\
  PerClient.IsObjectIdHex "507g1f77bcf86cd799439011" = false.
Proof. repeat split. Qed.

(** C7: on every string that [IsObjectIdHex] rejects, [ObjectIDHex] returns
    no identifier: it panics, in both packages, with the message
    [invalid input to ObjectIdHex] followed by the input. *)
Theorem ObjectIDHex_rejects (s : string) :
  PerClient.IsObjectIdHex s = false ->
  PerClient.ObjectIDHex s = Panic (PVString ("invalid input to ObjectIdHex: " +:+ s)) /\
  Global.ObjectIDHex s = Panic (PVString ("invalid input to ObjectIdHex: " +:+ s)).
Proof.
  unfold PerClient.IsObjectIdHex, PerClient.ObjectIDHex, Global.ObjectIDHex,
    bson.IsObjectIdHex, bson.ObjectIdHex.
  intros H.
  destruct (hex.DecodeString s) as [d|] eqn:Ed; [|now split].
  destruct (decode_some s d Ed) as [Hl _].
  destruct (Nat.eqb (String.length s) 24) eqn:El; [discriminate|].
  apply Nat.eqb_neq in El.
  destruct (Nat.eqb (String.length d) 12) eqn:E12; [|now split].
  apply Nat.eqb_eq in E12. lia.
Qed.

Lemma ObjectIDHex_rejects_witness :
  PerClient.ObjectIDHex "507f1f77bcf86cd79943901" =
    Panic (PVString "invalid input to ObjectIdHex: 507f1f77bcf86cd79943901") /\
  PerClient.ObjectIDHex "507f1f77bcf86cd79943901g" =
    Panic (PVString "invalid input to ObjectIdHex: 507f1f77bcf86cd79943901g").
Proof.
  split.
  - exact (proj1 (ObjectIDHex_rejects "507f1f77bcf86cd79943901" eq_refl)).
  - exact (proj1 (ObjectIDHex_rejects "507f1f77bcf86cd79943901g" eq_refl)).
Defined.

(** ** The sticky connection error *)

Ltac unfold_prog :=
  cbv beta iota zeta delta
    [fmap_prog PerClient.load PerClient.store PerClient.copy_session
     Global.copy_session PerClient.count_of Global.count_of
     bind ret panic get_mem set_mem deref].

Lemma PerClient_short_circuit {W} (h : mgo.Handler W)
    (st : State W (list PerClient.Client)) (p : nat) (cl : PerClient.Client)
    (e : Error) (op : Op) :
  mem st !! p = Some cl ->
  PerClient.connErr cl = Some e ->
  PerClient_run h (Some p) op st = (Ret (short_circuit_result op (Some e)), st).
Proof.
  intros Hp He.
  destruct op; cbn [PerClient_run];
    unfold PerClient.GetRow, PerClient.GetResult, PerClient.GetCount,
      PerClient.Insert, PerClient.Update, PerClient.UpdateAll, PerClient.Upsert,
      PerClient.Remove, PerClient.RemoveAll, PerClient.FindAndModify,
      PerClient.FindAndRemove, PerClient.GetPipeRow, PerClient.GetPipeResult;
    unfold_prog; rewrite Hp, He; reflexivity.
Qed.

Lemma Global_short_circuit {W} (h : mgo.Handler W)
    (st : State W (option Error)) (c : option Global.Client) (e : Error) (op : Op) :
  mem st = Some e ->
  Global_run h c op st = (Ret (short_circuit_result op (Some e)), st).
Proof.
  intros He.
  destruct op; cbn [Global_run];
    unfold Global.GetRow, Global.GetResult, Global.GetCount,
      Global.Insert, Global.Update, Global.UpdateAll, Global.Upsert,
      Global.Remove, Global.RemoveAll, Global.FindAndModify,
      Global.FindAndRemove, Global.GetPipeRow, Global.GetPipeResult;
    unfold_prog; rewrite He; reflexivity.
Qed.

Lemma run_seq_fixed {W Mem} (run : Op -> Prog W Mem Result) (f : Op -> Result)
    (st : State W Mem) (ops : list Op) :
  (forall op, run op st = (Ret (f op), st)) ->
  run_seq run ops st = (Ret (map f ops), st).
Proof.
  intros Hrun. induction ops as [|op ops IH]; [reflexivity|].
  cbn [run_seq map]. unfold bind at 1. rewrite Hrun.
  unfold bind at 1. rewrite IH. reflexivity.
Qed.

(** C1, as the code has it: on a handle whose sticky error is set, every
    facade method of either package returns that error without making any
    driver call (the world and the log of calls are unchanged) and leaves the
    sticky error as it was, also over any sequence of facade calls.  The
    value returned with the error is [0] for the counting methods and, for
    [UpdateAll] and [Upsert], the empty non-nil map. *)
Theorem sticky_error_short_circuits {W} (h : mgo.Handler W) (ops : list Op)
    (stP : State W (list PerClient.Client)) (p : nat) (cl : PerClient.Client)
    (stG : State W (option Error)) (c : option Global.Client) (e : Error) :
  mem stP !! p = Some cl ->
  PerClient.connErr cl = Some e ->
  mem stG = Some e ->
  run_seq (PerClient_run h (Some p)) ops stP
    = (Ret (map (fun op => short_circuit_result op (Some e)) ops), stP) /\
  run_seq (Global_run h c) ops stG
    = (Ret (map (fun op => short_circuit_result op (Some e)) ops), stG).
Proof.
  intros Hp He Hg. split.
  - apply run_seq_fixed. intros op. now apply PerClient_short_circuit with (cl := cl).
  - apply run_seq_fixed. intros op. now apply Global_short_circuit.
Qed.

Lemma sticky_error_short_circuits_witness :
  let e := "host: db.example.org:27017 error: no reachable servers" in
  run_seq (PerClient_run (scripted up) (Some 0%nat)) sample_ops (start sample_heap)
    = (Ret (map (fun op => short_circuit_result op (Some e)) sample_ops),
       start sample_heap) /\
  run_seq (Global_run (scripted up) None) sample_ops (start (Some e))
    = (Ret (map (fun op => short_circuit_result op (Some e)) sample_ops),
       start (Some e)).
Proof.
  exact (sticky_error_short_circuits (scripted up) sample_ops (start sample_heap)
           0%nat _ (start (Some _)) None _ eq_refl eq_refl eq_refl).
Defined.

(** C1 as stated fails at [UpdateAll]: with the sticky error set it returns
    the empty map literal, which is not the zero value (nil) of its map
    result. *)
Lemma sticky_error_zero_value_counterexample :
  let e := Some "host: db.example.org:27017 error: no reachable servers" in
  let op := OpUpdateAll "app" "users" ∅ ∅ in
  fst (PerClient_run (scripted up) (Some 0%nat) op (start sample_heap))
    = Ret (RMap (Some ∅) e) /\
  fst (PerClient_run (scripted up) (Some 0%nat) op (start sample_heap))
    <> Ret (zero_result op e).
Proof.
  split; [reflexivity|]. cbn. discriminate.
Qed.

(** ** The two packages side by side *)

Ltac unfold_methods :=
  unfold Global.GetRow, Global.GetResult, Global.GetCount,
    Global.Insert, Global.Update, Global.UpdateAll, Global.Upsert,
    Global.Remove, Global.RemoveAll, Global.FindAndModify,
    Global.FindAndRemove, Global.GetPipeRow, Global.GetPipeResult,
    Global.apply_Sort, Global.apply_Limit, Global.apply_Skip,
    PerClient.GetRow, PerClient.GetResult, PerClient.GetCount,
    PerClient.Insert, PerClient.Update, PerClient.UpdateAll, PerClient.Upsert,
    PerClient.Remove, PerClient.RemoveAll, PerClient.FindAndModify,
    PerClient.FindAndRemove, PerClient.GetPipeRow, PerClient.GetPipeResult,
    PerClient.apply_Sort, PerClient.apply_Limit, PerClient.apply_Skip.

Ltac unfold_run :=
  cbv beta iota zeta delta
    [fmap_prog PerClient.load PerClient.store PerClient.copy_session
     Global.copy_session PerClient.count_of Global.count_of
     bind ret panic get_mem set_mem deref call defer defer_recover
     world trace mem fst snd Global.session].

(** One driver call: split on the answer of the handler. *)
Ltac answer h :=
  match goal with
  | |- context [h ?R ?c ?w] =>
      let o := fresh "o" in
      let w' := fresh "w" in
      destruct (h R c w) as [o w']; destruct o; unfold_run
  end.

Ltac case_option :=
  match goal with
  | |- context [match ?x with Some _ => _ | None => _ end] =>
      destruct x; unfold_run
  end.

Ltac case_bool :=
  match goal with
  | |- context [if ?b then _ else _] => destruct b; unfold_run
  end.

(** C2, as the code has it.  Started in the same situation, each facade
    method makes the same driver calls in both packages: the logs and the
    driver worlds agree afterwards, and so do the sticky errors.  Whenever
    the per-client method returns, the method of [src/mongo.go] returns the
    same result and error; in the nine methods without [recover] the two
    also panic alike.  On a handle with a session and no sticky error, once
    [Copy] has returned the copy, the per-client outcome is that of the
    method's body under a deferred [Close], and the outcome in
    [src/mongo.go] is that of the same body under a deferred [Close] that,
    in [FindAndModify], [FindAndRemove], [GetPipeRow] and [GetPipeResult],
    first recovers: so when a panic unwinds the body of one of these four
    and [Close] then returns, [src/mongo.go] returns the zero values with a
    nil error while the per-client package lets the panic through, and the
    two outcomes differ in no other case.  When
    the body is not reached (sticky error, no session, or a panic of
    [Copy]) the two agree. *)
Theorem facade_runs_agree {W} (h : mgo.Handler W) (op : Op)
    (stG : State W (option Error)) (cG : option Global.Client)
    (stP : State W (list PerClient.Client)) (p : nat) :
  same_situation stG cG stP p ->
  same_situation (snd (Global_run h cG op stG)) cG
    (snd (PerClient_run h (Some p) op stP)) p /\
  (fst (Global_run h cG op stG) = fst (PerClient_run h (Some p) op stP) \/
   (recovers op = true /\
    exists pv, fst (PerClient_run h (Some p) op stP) = Panic pv /\
               fst (Global_run h cG op stG) = Ret (zero_result op None))) /\
  (recovers op = false ->
   fst (Global_run h cG op stG) = fst (PerClient_run h (Some p) op stP)) /\
  (forall r, fst (PerClient_run h (Some p) op stP) = Ret r ->
             fst (Global_run h cG op stG) = Ret r) /\
  (forall cl s0 s st1,
     mem stP !! p = Some cl ->
     PerClient.connErr cl = None ->
     PerClient.session cl = Some s0 ->
     call h (mgo.Copy s0) stP = (Ret s, st1) ->
     fst (PerClient_run h (Some p) op stP)
       = fst (defer (call h (mgo.Close s)) (PerClient_body h op s) st1) /\
     fst (Global_run h cG op stG)
       = fst ((if recovers op
               then defer_recover (zero_result op None)
               else defer)
                (call h (mgo.Close s)) (PerClient_body h op s) st1) /\
     (recovers op = true ->
      forall pv st2 w3,
        PerClient_body h op s st1 = (Panic pv, st2) ->
        h _ (mgo.Close s) (world st2) = (Ret tt, w3) ->
        fst (PerClient_run h (Some p) op stP) = Panic pv /\
        fst (Global_run h cG op stG) = Ret (zero_result op None)) /\
     (fst (Global_run h cG op stG) <> fst (PerClient_run h (Some p) op stP) ->
      recovers op = true /\
      exists pv st2 w3,
        PerClient_body h op s st1 = (Panic pv, st2) /\
        h _ (mgo.Close s) (world st2) = (Ret tt, w3))) /\
  (forall cl,
     mem stP !! p = Some cl ->
     PerClient.connErr cl <> None \/
     PerClient.session cl = None \/
     (exists s0 pv st1, PerClient.session cl = Some s0 /\
                        call h (mgo.Copy s0) stP = (Panic pv, st1)) ->
     fst (Global_run h cG op stG) = fst (PerClient_run h (Some p) op stP)).
Proof.
  intros Hsame.
  assert (Old :
    same_situation (snd (Global_run h cG op stG)) cG
      (snd (PerClient_run h (Some p) op stP)) p /\
    (fst (Global_run h cG op stG) = fst (PerClient_run h (Some p) op stP) \/
     (recovers op = true /\
      exists pv, fst (PerClient_run h (Some p) op stP) = Panic pv /\
                 fst (Global_run h cG op stG) = Ret (zero_result op None)))).
  { destruct Hsame as (cl & Hp & Hg & -> & Hw & Ht).
    destruct stG as [wG tG mG], stP as [wP tP mP]. cbn in Hp, Hg, Hw, Ht. subst wG tG mG.
    destruct op; cbn [Global_run PerClient_run recovers zero_result];
      unfold_methods; unfold_run; rewrite Hp; unfold_run;
      (destruct (PerClient.connErr cl) eqn:Ece; unfold_run;
       [ split; [exists cl; cbn; rewrite Ece; auto | left; reflexivity] | ]);
      (destruct (PerClient.session cl) eqn:Es; unfold_run;
       [ | split; [exists cl; cbn; rewrite Ece, Es; auto | left; reflexivity] ]);
      repeat first [ answer h | case_option | case_bool ];
      (split; [ exists cl; cbn; rewrite Ece, Es; auto | ]);
      first [ left; reflexivity | right; split; [reflexivity|]; eexists; split; reflexivity ]. }
  destruct Old as [Sit Agree].
  split; [exact Sit|]. split; [exact Agree|].
  split; [|split; [|split]].
  - intros Hrec. destruct Agree as [E|[Hrec' _]]; [exact E|congruence].
  - intros r Hr. destruct Agree as [E|(_ & pv & Hpv & _)]; congruence.
  - intros cl s0 s st1 Hp Hce Hs Hcopy.
    assert (Eqs :
      fst (PerClient_run h (Some p) op stP)
        = fst (defer (call h (mgo.Close s)) (PerClient_body h op s) st1) /\
      fst (Global_run h cG op stG)
        = fst ((if recovers op
                then defer_recover (zero_result op None)
                else defer)
                 (call h (mgo.Close s)) (PerClient_body h op s) st1)).
    { destruct Hsame as (cl' & Hp' & Hg & -> & Hw & Ht).
      rewrite Hp in Hp'. injection Hp' as <-.
      destruct stG as [wG tG mG], stP as [wP tP mP]. cbn in Hp, Hg, Hw, Ht. subst wG tG mG.
      unfold call in Hcopy. cbn [world trace mem] in Hcopy.
      destruct (h _ (mgo.Copy s0) wP) as [[a|pv] w0] eqn:E;
        [injection Hcopy as <- <- | discriminate Hcopy].
      destruct op; cbn [Global_run PerClient_run PerClient_body recovers zero_result];
        unfold_methods; unfold_run; rewrite Hp; unfold_run;
        rewrite Hce, Hs; unfold_run; rewrite E; unfold_run;
        repeat first [ answer h | case_option | case_bool ];
        split; reflexivity. }
    destruct Eqs as [EP EG]. split; [exact EP|]. split; [exact EG|]. split.
    + intros Hrec pv st2 w3 Hbody Hclose.
      rewrite EP, EG, Hrec. unfold defer, defer_recover, call.
      rewrite Hbody, Hclose. split; reflexivity.
    + rewrite EP, EG. destruct (recovers op); [|intros Hne; now contradiction Hne].
      unfold defer, defer_recover, call.
      destruct (PerClient_body h op s st1) as [[r|pv] st2].
      * destruct (h _ (mgo.Close s) (world st2)) as [[u|pv'] w3];
          intros Hne; now contradiction Hne.
      * destruct (h _ (mgo.Close s) (world st2)) as [[[]|pv'] w3] eqn:Ecl;
          intros Hne.
        -- split; [reflexivity|]. exists pv, st2, w3. split; [reflexivity|exact Ecl].
        -- now contradiction Hne.
  - intros cl Hp Hcase.
    destruct Hsame as (cl' & Hp' & Hg & -> & Hw & Ht).
    rewrite Hp in Hp'. injection Hp' as <-.
    destruct stG as [wG tG mG], stP as [wP tP mP]. cbn in Hp, Hg, Hw, Ht. subst wG tG mG.
    destruct Hcase as [Hce | [Hs | (s0 & pv & st1 & Hs & Hcopy)]].
    + destruct (PerClient.connErr cl) as [e|] eqn:Ece; [|congruence].
      destruct op; cbn [Global_run PerClient_run];
        unfold_methods; unfold_run; rewrite Hp; unfold_run; rewrite Ece; reflexivity.
    + destruct op; cbn [Global_run PerClient_run];
        unfold_methods; unfold_run; rewrite Hp; unfold_run;
        destruct (PerClient.connErr cl); unfold_run; rewrite ?Hs; reflexivity.
    + unfold call in Hcopy. cbn [world trace mem] in Hcopy.
      destruct (h _ (mgo.Copy s0) wP) as [[a|pv'] w0] eqn:E;
        [discriminate Hcopy | injection Hcopy as <- <-].
      destruct op; cbn [Global_run PerClient_run];
        unfold_methods; unfold_run; rewrite Hp; unfold_run;
        destruct (PerClient.connErr cl); unfold_run; rewrite ?Hs; unfold_run;
        rewrite ?E; reflexivity.
Qed.

Lemma sample_same_situation :
  same_situation (start None) (Some {| Global.session := Some 1%N |})
    (start sample_heap) 1.
Proof.
  eexists. repeat split; reflexivity.
Defined.

Lemma facade_runs_agree_witness :
  let op := OpGetPipeResult "app" "users" [] 0%N in
  let cG := Some {| Global.session := Some 1%N |} in
  let st1 := {| world := tt; trace := [mgo.ev (mgo.Copy 1%N)]; mem := sample_heap |} in
  (PerClient_body (scripted up) op 2%N st1
     = (Panic (PVString "result argument must be a slice address"),
        {| world := tt;
           trace := [mgo.ev (mgo.Copy 1%N);
                     mgo.ev (mgo.Pipe (mgo.DB_C 2%N "app" "users") []);
                     mgo.ev (mgo.PipeAll 9%N 0%N)];
           mem := sample_heap |})) /\
  fst (PerClient_run (scripted up) (Some 1%nat) op (start sample_heap))
    = Panic (PVString "result argument must be a slice address") /\
  fst (Global_run (scripted up) cG op (start None)) = Ret (zero_result op None).
Proof.
  split; [reflexivity|].
  exact (proj1 (proj2 (proj2
           (proj1 (proj2 (proj2 (proj2 (proj2
              (facade_runs_agree (scripted up) (OpGetPipeResult "app" "users" [] 0%N)
                 (start None) _ (start sample_heap) 1 sample_same_situation)))))
              {| PerClient.host := "db.example.org:27017";
                 PerClient.session := Some 1%N;
                 PerClient.connErr := None |}
              1%N 2%N
              {| world := tt; trace := [mgo.ev (mgo.Copy 1%N)]; mem := sample_heap |}
              eq_refl eq_refl eq_refl eq_refl)))
           eq_refl _ _ tt eq_refl eq_refl).
Defined.

(** C2 as stated fails at [GetPipeResult] with a nil result target, on which
    the driver's [All] panics: the same situation, the same driver, and the
    per-client package panics while [src/mongo.go] returns a nil error. *)
Lemma facade_equivalence_counterexample :
  let op := OpGetPipeResult "app" "users" [] 0%N in
  let cG := Some {| Global.session := Some 1%N |} in
  same_situation (start None) cG (start sample_heap) 1 /\
  fst (PerClient_run (scripted up) (Some 1%nat) op (start sample_heap))
    = Panic (PVString "result argument must be a slice address") /\
  fst (Global_run (scripted up) cG op (start None)) = Ret (RError None) /\
  fst (Global_run (scripted up) cG op (start None))
    <> fst (PerClient_run (scripted up) (Some 1%nat) op (start sample_heap)).
Proof.
  repeat split; try reflexivity.
  - exact sample_same_situation.
  - cbn. discriminate.
Qed.

(** ** Connecting *)

Lemma insert_fresh {A} (l : list A) (x y : A) :
  <[length l := x]> (l ++ [y])%list = (l ++ [x])%list.
Proof.
  rewrite insert_app_r_alt by lia. now rewrite Nat.sub_diag.
Qed.

(** Dialing fails and the address parsed as a URL: the per-client [Conn]
    returns a fresh handle whose sticky error wraps the host of the URL and
    the message of the dial error; only [Dial] was called. *)
Lemma PerClient_Conn_dial_fails {W} (h : mgo.Handler W)
    (url_Parse : string -> option URL * option Error) (urlAddr : string)
    (st : State W (list PerClient.Client)) (u : URL)
    (s : option mgo.Session) (err : Error) (w' : W) :
  fst (url_Parse urlAddr) = Some u ->
  h _ (mgo.Dial urlAddr) (world st) = (Ret (s, Some err), w') ->
  PerClient.Conn h url_Parse urlAddr st =
    (Ret (Some (length (mem st))),
     {| world := w';
        trace := (trace st ++ [mgo.ev (mgo.Dial urlAddr)])%list;
        mem := (mem st ++ [ {| PerClient.host := EmptyString;
                               PerClient.session := None;
                               PerClient.connErr := Some (wrap_error (Host u) err) |} ])%list |}).
Proof.
  destruct st as [w t m]. cbn [world trace mem]. intros Hu Hd.
  unfold PerClient.Conn, PerClient.alloc.
  destruct (url_Parse urlAddr) as [pu pe]. cbn [fst] in Hu. subst pu.
  unfold_run. rewrite Hd. unfold_run.
  now rewrite insert_fresh.
Qed.

(** Dialing succeeds and the address parsed as a URL: the socket timeout of
    the session is set to 24 hours, and the handle holds the session and the
    host with no sticky error. *)
Lemma PerClient_Conn_dial_succeeds {W} (h : mgo.Handler W)
    (url_Parse : string -> option URL * option Error) (urlAddr : string)
    (st : State W (list PerClient.Client)) (u : URL)
    (s : mgo.Session) (w1 w2 : W) :
  fst (url_Parse urlAddr) = Some u ->
  h _ (mgo.Dial urlAddr) (world st) = (Ret (Some s, None), w1) ->
  h _ (mgo.SetSocketTimeout s 86400000000000) w1 = (Ret tt, w2) ->
  PerClient.Conn h url_Parse urlAddr st =
    (Ret (Some (length (mem st))),
     {| world := w2;
        trace := (trace st ++ [mgo.ev (mgo.Dial urlAddr)]
                           ++ [mgo.ev (mgo.SetSocketTimeout s 86400000000000)])%list;
        mem := (mem st ++ [ {| PerClient.host := Host u;
                               PerClient.session := Some s;
                               PerClient.connErr := None |} ])%list |}).
Proof.
  destruct st as [w t m]. cbn [world trace mem]. intros Hu Hd Ht.
  unfold PerClient.Conn, PerClient.alloc.
  destruct (url_Parse urlAddr) as [pu pe]. cbn [fst] in Hu. subst pu.
  unfold_run. rewrite Hd. unfold_run.
  change (24 * Hour) with 86400000000000. rewrite Ht. unfold_run.
  now rewrite insert_fresh, <- app_assoc.
Qed.

(** [src/mongo.go]: a dial failure is recorded, unwrapped, in the
    process-wide [connErr], and the handle returned is nil; a success clears
    [connErr] and sets the socket timeout to 24 hours. *)
Lemma Global_Conn_dial_fails {W} (h : mgo.Handler W) (url : string)
    (st : State W (option Error)) (s : option mgo.Session) (err : Error) (w' : W) :
  h _ (mgo.Dial url) (world st) = (Ret (s, Some err), w') ->
  Global.Conn h url st =
    (Ret None,
     {| world := w'; trace := (trace st ++ [mgo.ev (mgo.Dial url)])%list;
        mem := Some err |}).
Proof.
  destruct st as [w t m]. cbn [world trace mem]. intros Hd.
  unfold Global.Conn, Global.Conn_body. unfold_run.
  rewrite Hd. reflexivity.
Qed.

Lemma Global_Conn_dial_succeeds {W} (h : mgo.Handler W) (url : string)
    (st : State W (option Error)) (s : mgo.Session) (w1 w2 : W) :
  h _ (mgo.Dial url) (world st) = (Ret (Some s, None), w1) ->
  h _ (mgo.SetSocketTimeout s 86400000000000) w1 = (Ret tt, w2) ->
  Global.Conn h url st =
    (Ret (Some {| Global.session := Some s |}),
     {| world := w2;
        trace := (trace st ++ [mgo.ev (mgo.Dial url)]
                           ++ [mgo.ev (mgo.SetSocketTimeout s 86400000000000)])%list;
        mem := None |}).
Proof.
  destruct st as [w t m]. cbn [world trace mem]. intros Hd Ht.
  unfold Global.Conn, Global.Conn_body. unfold_run.
  rewrite Hd. unfold_run.
  change (24 * Hour) with 86400000000000. rewrite Ht. unfold_run.
  now rewrite <- app_assoc.
Qed.

(** C5 at its failing input: the address of [src/example/main.go] is not a
    URL for [url.Parse], whose error [Conn] discards; the nil URL is then
    dereferenced, and the per-client [Conn] panics instead of returning a
    handle, when dialing fails and also when it succeeds. *)
Theorem Conn_panics_on_unparsed_address :
  fst (sample_url_Parse "127.0.0.1:27017") = None /\
  fst (PerClient.Conn (scripted down) sample_url_Parse "127.0.0.1:27017" (start []))
    = Panic nil_deref /\
  fst (PerClient.Conn (scripted up) sample_url_Parse "127.0.0.1:27017" (start []))
    = Panic nil_deref.
Proof.
  repeat split; reflexivity.
Qed.

(** ** Ping *)

(** C6, as the code has it.  The per-client [Ping] returns the sticky error
    at once when it is set; otherwise it copies the session, pings the
    server on the copy, stores a new sticky error made of the host and the
    message when the ping fails, closes the copy (also when the ping
    panics), and returns the sticky error as it then is.  The [Ping] of
    [src/mongo.go] only returns the process-wide sticky error: it makes no
    driver call and changes nothing. *)
Theorem Ping_behaviour {W} (h : mgo.Handler W)
    (st : State W (list PerClient.Client)) (p : nat) (cl : PerClient.Client)
    (stG : State W (option Error)) :
  mem st !! p = Some cl ->
  (forall e, PerClient.connErr cl = Some e ->
     PerClient.Ping h (Some p) st = (Ret (Some e), st)) /\
  (forall s0 s w1 err w2 w3,
     PerClient.connErr cl = None ->
     PerClient.session cl = Some s0 ->
     h _ (mgo.Copy s0) (world st) = (Ret s, w1) ->
     h _ (mgo.Ping s) w1 = (Ret err, w2) ->
     h _ (mgo.Close s) w2 = (Ret tt, w3) ->
     PerClient.Ping h (Some p) st =
       (Ret (option_map (wrap_error (PerClient.host cl)) err),
        {| world := w3;
           trace := (trace st ++ [mgo.ev (mgo.Copy s0); mgo.ev (mgo.Ping s);
                                  mgo.ev (mgo.Close s)])%list;
           mem := match err with
                  | Some e =>
                      <[p := {| PerClient.host := PerClient.host cl;
                                PerClient.session := PerClient.session cl;
                                PerClient.connErr :=
                                  Some (wrap_error (PerClient.host cl) e) |}]> (mem st)
                  | None => mem st
                  end |})) /\
  (forall s0 s w1 pv w2 w3,
     PerClient.connErr cl = None ->
     PerClient.session cl = Some s0 ->
     h _ (mgo.Copy s0) (world st) = (Ret s, w1) ->
     h _ (mgo.Ping s) w1 = (Panic pv, w2) ->
     h _ (mgo.Close s) w2 = (Ret tt, w3) ->
     PerClient.Ping h (Some p) st =
       (Panic pv,
        {| world := w3;
           trace := (trace st ++ [mgo.ev (mgo.Copy s0); mgo.ev (mgo.Ping s);
                                  mgo.ev (mgo.Close s)])%list;
           mem := mem st |})) /\
  Global.Ping stG = (Ret (mem stG), stG).
Proof.
  destruct st as [w t m]. cbn [world trace mem]. intros Hp.
  assert (Hlt : (p < length m)%nat) by (eapply lookup_lt_Some; eauto).
  split; [|split; [|split]]; [| | |destruct stG; reflexivity].
  - intros e He. unfold PerClient.Ping. unfold_run. rewrite Hp. unfold_run.
    rewrite He. reflexivity.
  - intros s0 s w1 err w2 w3 He Hs Hc Hping Hclose.
    unfold PerClient.Ping. unfold_run. rewrite Hp. unfold_run.
    rewrite He, Hs. unfold_run. rewrite Hc. unfold_run. rewrite Hping. unfold_run.
    destruct err as [e|]; unfold_run.
    + rewrite list_lookup_insert_eq by exact Hlt. unfold_run.
      rewrite Hclose. cbn [option_map PerClient.connErr].
      now rewrite <- !app_assoc.
    + rewrite Hp. unfold_run. rewrite Hclose. rewrite He.
      cbn [option_map]. now rewrite <- !app_assoc.
  - intros s0 s w1 pv w2 w3 He Hs Hc Hping Hclose.
    unfold PerClient.Ping. unfold_run. rewrite Hp. unfold_run.
    rewrite He, Hs. unfold_run. rewrite Hc. unfold_run. rewrite Hping. unfold_run.
    rewrite Hclose. now rewrite <- !app_assoc.
Qed.

Lemma Ping_behaviour_witness :
  PerClient.Ping (scripted failing) (Some 1%nat) (start sample_heap) =
    (Ret (Some "host: db.example.org:27017 error: EOF"),
     {| world := tt;
        trace := [mgo.ev (mgo.Copy 1%N); mgo.ev (mgo.Ping 2%N); mgo.ev (mgo.Close 2%N)];
        mem := <[1%nat := {| PerClient.host := "db.example.org:27017";
                             PerClient.session := Some 1%N;
                             PerClient.connErr :=
                               Some "host: db.example.org:27017 error: EOF" |}]>
                 sample_heap |}).
Proof.
  exact (proj1 (proj2 (Ping_behaviour (scripted failing) (start sample_heap) 1
                         {| PerClient.host := "db.example.org:27017";
                            PerClient.session := Some 1%N;
                            PerClient.connErr := None |}
                         (start None) eq_refl))
           1%N 2%N tt (Some "EOF") tt tt eq_refl eq_refl eq_refl eq_refl eq_refl).
Defined.

(** C6 as stated fails for the [Ping] of [src/mongo.go]: with no sticky
    error set it returns nil without copying the session or pinging the
    server; the log of driver calls stays empty. *)
Lemma Ping_global_counterexample :
  mem (start (@None Error)) = None /\
  Global.Ping (start (@None Error)) = (Ret None, start None) /\
  ~ (exists s : mgo.Session,
       In (mgo.ev (mgo.Ping s)) (trace (snd (Global.Ping (start (@None Error)))))).
Proof.
  repeat split. intros [s []].
Qed.

(** ** The options of GetResult *)

(** One driver call against a driver that never panics. *)
Ltac answer_np h NP :=
  match goal with
  | |- context [h ?R ?c ?w] =>
      let r := fresh "r" in
      let Hr := fresh "Hr" in
      let o := fresh "o" in
      let w' := fresh "w" in
      destruct (NP R c w) as [r Hr];
      destruct (h R c w) as [o w'];
      cbn [fst] in Hr; subst o; unfold_run
  end.

Lemma scripted_never_panics (sc : Script) :
  strict sc = false -> never_panics (scripted sc).
Proof.
  intros Hs R c w. destruct c; cbn; unfold all_answer; rewrite ?Hs; cbn; eauto.
  destruct (dial_err sc); eauto.
Qed.


















(** The options of the specification's example are all applied, in the
    order [Sort], [Limit], [Skip]. *)
Example GetResult_sample_options :
  PerClient.GetResult (scripted up) (Some 1%nat) "app" "users" ∅ ∅
      sample_options 1%N (start sample_heap)
    = (Ret None,
       {| world := tt;
          trace := [mgo.ev (mgo.Copy 1%N);
                    mgo.ev (mgo.Find (mgo.DB_C 2%N "app" "users") ∅);
                    mgo.ev (mgo.Select 7%N ∅);
                    mgo.ev (mgo.Sort 7%N ["-age"]);
                    mgo.ev (mgo.Limit 7%N 2);
                    mgo.ev (mgo.Skip 7%N 1);
                    mgo.ev (mgo.All 7%N 1%N);
                    mgo.ev (mgo.Close 2%N)];
          mem := sample_heap |}).
Proof. reflexivity. Qed.

(** Mistyped options, a plain [[]string], a string and an [int64], are
    ignored without an error. *)
Example GetResult_mistyped_options :
  PerClient.GetResult (scripted up) (Some 1%nat) "app" "users" ∅ ∅
      mistyped_options 1%N (start sample_heap)
    = (Ret None,
       {| world := tt;
          trace := [mgo.ev (mgo.Copy 1%N);
                    mgo.ev (mgo.Find (mgo.DB_C 2%N "app" "users") ∅);
                    mgo.ev (mgo.Select 7%N ∅);
                    mgo.ev (mgo.All 7%N 1%N);
                    mgo.ev (mgo.Close 2%N)];
          mem := sample_heap |}).
Proof. reflexivity. Qed.

(** ** The map returned by UpdateAll and Upsert *)

Lemma info_map_keys (info : mgo.ChangeInfo) : dom (info_map info) = info_keys.
Proof.
  unfold info_map, info_keys. rewrite !dom_insert_L, dom_empty_L. set_solver.
Qed.

Lemma info_map_not_empty (info : mgo.ChangeInfo) : info_map info <> ∅.
Proof.
  intros E. apply (f_equal (fun m => m !! "Matched")) in E.
  unfold info_map in E. rewrite lookup_insert_eq, lookup_empty in E. discriminate.
Qed.

(** C9: for [UpdateAll] and [Upsert], in both packages.  With the sticky
    error set the map returned is empty but not nil.  Otherwise, when the
    driver call returns an error the map is nil and the error is passed on,
    and when it returns none the map is not nil and its keys are exactly
    [Matched], [Updated] and [UpsertedId].  Whenever the method returns, its
    map is nil only on the path where the driver call returned an error: no
    sticky error, and a non-nil error returned. *)
Theorem update_result_map {W} (h : mgo.Handler W) (upsert : bool)
    (database collection : string) (selector update : gmap string mgo.Value)
    (stP : State W (list PerClient.Client)) (p : nat) (cl : PerClient.Client)
    (stG : State W (option Error)) :
  mem stP !! p = Some cl ->
  mem stG = PerClient.connErr cl ->
  world stG = world stP ->
  let op := update_op upsert database collection selector update in
  let cG := Some {| Global.session := PerClient.session cl |} in
  (forall ce, PerClient.connErr cl = Some ce ->
     PerClient_run h (Some p) op stP = (Ret (RMap (Some ∅) (Some ce)), stP) /\
     Global_run h cG op stG = (Ret (RMap (Some ∅) (Some ce)), stG)) /\
  (forall s0 s w1 info err w2 w3,
     PerClient.connErr cl = None ->
     PerClient.session cl = Some s0 ->
     h _ (mgo.Copy s0) (world stP) = (Ret s, w1) ->
     h _ (update_call upsert (mgo.DB_C s database collection) selector update) w1
       = (Ret (info, Some err), w2) ->
     h _ (mgo.Close s) w2 = (Ret tt, w3) ->
     fst (PerClient_run h (Some p) op stP) = Ret (RMap None (Some err)) /\
     fst (Global_run h cG op stG) = Ret (RMap None (Some err))) /\
  (forall s0 s w1 info w2 w3,
     PerClient.connErr cl = None ->
     PerClient.session cl = Some s0 ->
     h _ (mgo.Copy s0) (world stP) = (Ret s, w1) ->
     h _ (update_call upsert (mgo.DB_C s database collection) selector update) w1
       = (Ret (Some info, None), w2) ->
     h _ (mgo.Close s) w2 = (Ret tt, w3) ->
     fst (PerClient_run h (Some p) op stP) = Ret (RMap (Some (info_map info)) None) /\
     fst (Global_run h cG op stG) = Ret (RMap (Some (info_map info)) None) /\
     dom (info_map info) = info_keys) /\
  (forall m e,
     fst (PerClient_run h (Some p) op stP) = Ret (RMap m e) \/
     fst (Global_run h cG op stG) = Ret (RMap m e) ->
     (m = None <-> PerClient.connErr cl = None /\ e <> None) /\
     (forall mm, m = Some mm -> mm = ∅ \/ dom mm = info_keys)).
Proof.
  destruct stP as [wP tP mP], stG as [wG tG mG]. cbn [world trace mem].
  intros Hp Hg Hw. cbv zeta. subst mG wG.
  split; [|split; [|split]].
  - intros ce Hce.
    destruct upsert; cbn [update_op PerClient_run Global_run];
      unfold_methods; unfold_run; rewrite Hp; unfold_run; rewrite Hce; now split.
  - intros s0 s w1 info err w2 w3 Hce Hs Hc Hd Hclose.
    destruct upsert; cbn [update_op update_call PerClient_run Global_run] in *;
      unfold_methods; unfold_run; rewrite Hp; unfold_run; rewrite Hce, Hs; unfold_run;
      rewrite Hc; unfold_run; rewrite Hd; unfold_run; rewrite Hclose; now split.
  - intros s0 s w1 info w2 w3 Hce Hs Hc Hd Hclose.
    destruct upsert; cbn [update_op update_call PerClient_run Global_run] in *;
      unfold_methods; unfold_run; rewrite Hp; unfold_run; rewrite Hce, Hs; unfold_run;
      rewrite Hc; unfold_run; rewrite Hd; unfold_run; rewrite Hclose;
      (split; [reflexivity | split; [reflexivity | apply info_map_keys]]).
  - intros m e.
    destruct upsert; cbn [update_op PerClient_run Global_run];
      unfold_methods; unfold_run; rewrite Hp; unfold_run;
      destruct (PerClient.connErr cl) as [ce|]; unfold_run;
      try destruct (PerClient.session cl) as [s0|]; unfold_run;
      repeat first [ answer h | case_option ];
      (intros [H|H]; try discriminate H; injection H as <- <-;
       (split;
        [ intuition congruence
        | intros mm Hm;
          first [ discriminate Hm
                | injection Hm as <-;
                  first [ now left | right; apply info_map_keys ] ] ])).
Qed.

Lemma update_result_map_witness :
  fst (PerClient_run (scripted failing) (Some 1%nat)
         (OpUpdateAll "app" "users" ∅ ∅) (start sample_heap))
    = Ret (RMap None (Some "EOF")) /\
  fst (Global_run (scripted failing) (Some {| Global.session := Some 1%N |})
         (OpUpdateAll "app" "users" ∅ ∅) (start None))
    = Ret (RMap None (Some "EOF")).
Proof.
  exact (proj1 (proj2 (update_result_map (scripted failing) false "app" "users" ∅ ∅
                         (start sample_heap) 1
                         {| PerClient.host := "db.example.org:27017";
                            PerClient.session := Some 1%N;
                            PerClient.connErr := None |}
                         (start None) eq_refl eq_refl eq_refl))
           1%N 2%N tt None "EOF" tt tt eq_refl eq_refl eq_refl eq_refl eq_refl).
Defined.

(** On success the map holds the three fields of the driver's answer. *)
Example Upsert_success :
  fst (PerClient_run (scripted up) (Some 1%nat)
         (OpUpsert "app" "users" ∅ ∅) (start sample_heap))
    = Ret (RMap (Some (info_map sample_info)) None).
Proof. reflexivity. Qed.

(** ** Counts and errors *)

Lemma PerClient_count_zero {W} (h : mgo.Handler W) (op : Op) (c : option nat)
    (st : State W (list PerClient.Client)) (n : Z) (e : Error) :
  counting op = true ->
  fst (PerClient_run h c op st) = Ret (RCount n (Some e)) ->
  n = 0.
Proof.
  destruct st as [w t m]. intros Hop.
  destruct op; try discriminate Hop; cbn [PerClient_run];
    unfold_methods; unfold_run;
    repeat first [ answer h | case_option ];
    intros H; try discriminate H; injection H as <- _; reflexivity.
Qed.

Lemma Global_count_zero {W} (h : mgo.Handler W) (op : Op)
    (c : option Global.Client) (st : State W (option Error)) (n : Z) (e : Error) :
  counting op = true ->
  fst (Global_run h c op st) = Ret (RCount n (Some e)) ->
  n = 0.
Proof.
  destruct st as [w t m]. intros Hop.
  destruct c as [[s]|];
  (destruct op; try discriminate Hop; cbn [Global_run];
    unfold_methods; unfold_run;
    repeat first [ answer h | case_option ];
    intros H; try discriminate H; injection H as <- _; reflexivity).
Qed.

(** C10: whenever [RemoveAll], [FindAndModify] or [FindAndRemove], of either
    package, returns a non-nil error, the count next to it is 0; so a count
    other than 0 comes with a nil error only. *)
Theorem count_zero_on_error {W} (h : mgo.Handler W) (op : Op)
    (c : option nat) (stP : State W (list PerClient.Client))
    (cG : option Global.Client) (stG : State W (option Error))
    (n : Z) (err : option Error) :
  counting op = true ->
  fst (PerClient_run h c op stP) = Ret (RCount n err) \/
  fst (Global_run h cG op stG) = Ret (RCount n err) ->
  (err <> None -> n = 0) /\ (n <> 0 -> err = None).
Proof.
  intros Hop H.
  assert (Z0 : forall e, err = Some e -> n = 0).
  { intros e ->. destruct H as [H|H].
    - eapply PerClient_count_zero; eauto.
    - eapply Global_count_zero; eauto. }
  split.
  - destruct err as [e|]; [intros _; eauto | congruence].
  - intros Hn. destruct err as [e|]; [|reflexivity].
    exfalso. apply Hn. eauto.
Qed.

Lemma count_zero_on_error_witness :
  fst (PerClient_run (scripted failing) (Some 1%nat)
         (OpFindAndRemove "app" "users" ∅ 1%N) (start sample_heap))
    = Ret (RCount 0 (Some "EOF")) /\
  ((Some "EOF" : option Error) <> None -> 0 = 0).
Proof.
  split; [reflexivity|].
  exact (proj1 (count_zero_on_error (scripted failing)
                  (OpFindAndRemove "app" "users" ∅ 1%N) (Some 1%nat)
                  (start sample_heap) None (start None) 0 (Some "EOF")
                  eq_refl (or_introl eq_refl))).
Defined.

(** A count other than 0, with a nil error. *)
Example RemoveAll_success :
  fst (Global_run (scripted up) (Some {| Global.session := Some 1%N |})
         (OpRemoveAll "app" "users" ∅) (start None))
    = Ret (RCount 3 None).
Proof. reflexivity. Qed.

(** * Further properties of the two packages *)

(** The events added to a log that was extended on the right, or left as
    it was. *)
Ltac read_events :=
  unfold new_events; cbn [snd trace];
  rewrite <- ?app_assoc; first [ rewrite drop_app_length | rewrite drop_all ];
  cbn.

Ltac read_new_events :=
  unfold new_events; cbn [snd trace];
  rewrite <- ?app_assoc; rewrite drop_app_length; cbn [app].

(** One driver call, keeping the equation of its answer. *)
Ltac answer_eq h :=
  match goal with
  | |- context [h ?R ?c ?w] =>
      let o := fresh "o" in
      let w' := fresh "w" in
      let a := fresh "a" in
      let E := fresh "E" in
      destruct (h R c w) as [o w'] eqn:E; destruct o as [a|];
      [ lazymatch type of a with
        | prod _ _ => destruct a as [? ?]
        | _ => idtac
        end | ]; unfold_run
  end.

(** ** What the facade leaves alone *)

(** No facade method writes the memory of its package, whatever the driver
    answers: an error or a panic of an operation is never stored as the
    sticky error, and a sticky error is never cleared. *)
Theorem facade_keeps_memory {W} (h : mgo.Handler W) (op : Op)
    (c : option nat) (stP : State W (list PerClient.Client))
    (cG : option Global.Client) (stG : State W (option Error)) :
  mem (snd (PerClient_run h c op stP)) = mem stP /\
  mem (snd (Global_run h cG op stG)) = mem stG.
Proof.
  destruct stP as [wP tP mP], stG as [wG tG mG]. split.
  - destruct op; cbn [PerClient_run]; unfold_methods; unfold_run;
      repeat first [ answer h | case_option | case_bool ]; reflexivity.
  - destruct cG as [[s]|];
      (destruct op; cbn [Global_run]; unfold_methods; unfold_run;
       repeat first [ answer h | case_option | case_bool ]; reflexivity).
Qed.

(** A nil handle.  In the per-client package every facade method, and
    [Ping], panics on it with a nil pointer dereference before any driver
    call.  In [src/mongo.go] the sticky error is read first: a nil handle
    gets the sticky error back when one is set, and the panic otherwise. *)
Theorem nil_handle {W} (h : mgo.Handler W) (op : Op)
    (stP : State W (list PerClient.Client)) (stG : State W (option Error)) :
  PerClient_run h None op stP = (Panic nil_deref, stP) /\
  PerClient.Ping h None stP = (Panic nil_deref, stP) /\
  Global_run h None op stG =
    (match mem stG with
     | Some e => Ret (short_circuit_result op (Some e))
     | None => Panic nil_deref
     end, stG).
Proof.
  destruct stP as [wP tP mP], stG as [wG tG mG]. repeat split.
  - destruct op; reflexivity.
  - destruct op; cbn [Global_run]; unfold_methods; unfold_run;
      destruct mG; reflexivity.
Qed.

(** ** Ping on a handle *)

(** The per-client [Ping], whatever the driver does: it keeps the number
    of handles; it never changes the host or the session of any handle; it
    never changes a handle other than the one pinged; and it never clears
    or replaces a sticky error that is set. *)
Theorem Ping_frame {W} (h : mgo.Handler W) (c : option nat)
    (st : State W (list PerClient.Client)) (q : nat) (cl : PerClient.Client) :
  mem st !! q = Some cl ->
  length (mem (snd (PerClient.Ping h c st))) = length (mem st) /\
  exists cl',
    mem (snd (PerClient.Ping h c st)) !! q = Some cl' /\
    PerClient.host cl' = PerClient.host cl /\
    PerClient.session cl' = PerClient.session cl /\
    (c <> Some q -> cl' = cl) /\
    (PerClient.connErr cl <> None -> cl' = cl).
Proof.
  destruct st as [w t m]. cbn [mem]. intros Hq.
  assert (Keep : length m = length m /\
                 exists cl', m !! q = Some cl' /\
                   PerClient.host cl' = PerClient.host cl /\
                   PerClient.session cl' = PerClient.session cl /\
                   (c <> Some q -> cl' = cl) /\
                   (PerClient.connErr cl <> None -> cl' = cl)).
  { split; [reflexivity|]. exists cl. auto. }
  unfold PerClient.Ping. unfold_run.
  destruct c as [p|]; unfold_run; [|exact Keep].
  destruct (m !! p) as [clp|] eqn:Hp; unfold_run; [|exact Keep].
  destruct (PerClient.connErr clp) as [e|] eqn:He; unfold_run; [exact Keep|].
  destruct (PerClient.session clp) as [s0|] eqn:Hs; unfold_run; [|exact Keep].
  answer h; [|exact Keep].
  answer h.
  - destruct a0 as [e|]; unfold_run.
    + assert (Hlt : (p < length m)%nat) by (eapply lookup_lt_Some; eauto).
      rewrite list_lookup_insert_eq by exact Hlt. unfold_run.
      answer h; (split; [apply length_insert|]);
        (destruct (decide (p = q)) as [->|Hne];
         [ rewrite list_lookup_insert_eq by exact Hlt;
           rewrite Hq in Hp; injection Hp as <-;
           eexists; split; [reflexivity|]; cbn;
           repeat split; try congruence
         | rewrite list_lookup_insert_ne by exact Hne;
           exists cl; auto ]).
    + rewrite Hp. unfold_run. answer h; exact Keep.
  - answer h; exact Keep.
Qed.

Lemma Ping_frame_witness :
  length (mem (snd (PerClient.Ping (scripted failing) (Some 1%nat) (start sample_heap))))
    = 2%nat /\
  exists cl',
    mem (snd (PerClient.Ping (scripted failing) (Some 1%nat) (start sample_heap))) !! 0%nat
      = Some cl' /\
    PerClient.connErr cl' = Some "host: db.example.org:27017 error: no reachable servers".
Proof.
  destruct (Ping_frame (scripted failing) (Some 1%nat) (start sample_heap) 0
              {| PerClient.host := EmptyString; PerClient.session := None;
                 PerClient.connErr :=
                   Some "host: db.example.org:27017 error: no reachable servers" |}
              eq_refl) as [Hlen [cl' [Hq [_ [_ [Hother _]]]]]].
  split; [exact Hlen|].
  exists cl'. split; [exact Hq|].
  rewrite Hother; [reflexivity|discriminate].
Defined.

(** ** The session copy *)

Lemma removelast_last {A} (l : list A) (d : A) :
  last l = Some d -> l = (removelast l ++ [d])%list.
Proof.
  induction l as [|a [|b l] IH]; intros H.
  - discriminate.
  - injection H as <-. reflexivity.
  - cbn [removelast app]. f_equal. apply IH. exact H.
Qed.

Lemma bracketed (P : mgo.Event -> Prop) (a d : mgo.Event) (rest : list mgo.Event) :
  last rest = Some d ->
  Forall P (removelast rest) ->
  exists mid, a :: rest = a :: (mid ++ [d])%list /\ Forall P mid.
Proof.
  intros Hl Hf. exists (removelast rest). split; [|exact Hf].
  f_equal. now apply removelast_last.
Qed.

(** A session copy never leaks.  On a handle without sticky error, once
    [Copy] has returned the copy, every facade method of either package
    ends by closing that very copy, whatever the driver answers in between,
    an error or a panic included; and it opens or closes no other session. *)
Theorem session_copy_released {W} (h : mgo.Handler W) (op : Op)
    (stP : State W (list PerClient.Client)) (p : nat) (cl : PerClient.Client)
    (stG : State W (option Error)) (s0 s : mgo.Session) (w1 : W) :
  mem stP !! p = Some cl ->
  PerClient.connErr cl = None ->
  PerClient.session cl = Some s0 ->
  mem stG = None ->
  world stG = world stP ->
  h _ (mgo.Copy s0) (world stP) = (Ret s, w1) ->
  (exists mid,
     new_events stP (snd (PerClient_run h (Some p) op stP))
       = mgo.ev (mgo.Copy s0) :: (mid ++ [mgo.ev (mgo.Close s)])%list /\
     Forall (fun e => session_call e = false) mid) /\
  (exists mid,
     new_events stG (snd (Global_run h (Some {| Global.session := Some s0 |}) op stG))
       = mgo.ev (mgo.Copy s0) :: (mid ++ [mgo.ev (mgo.Close s)])%list /\
     Forall (fun e => session_call e = false) mid).
Proof.
  destruct stP as [wP tP mP], stG as [wG tG mG]. cbn [world trace mem].
  intros Hp He Hs -> -> Hc. split.
  - destruct op; cbn [PerClient_run]; unfold_methods; unfold_run;
      rewrite Hp; unfold_run; rewrite He, Hs; unfold_run; rewrite Hc; unfold_run;
      repeat first [ answer h | case_option | case_bool ];
      read_new_events; (apply bracketed; [reflexivity | cbn; repeat constructor]).
  - destruct op; cbn [Global_run]; unfold_methods; unfold_run;
      rewrite Hc; unfold_run;
      repeat first [ answer h | case_option | case_bool ];
      read_new_events; (apply bracketed; [reflexivity | cbn; repeat constructor]).
Qed.

Lemma session_copy_released_witness :
  new_events (start sample_heap)
    (snd (PerClient_run (scripted up) (Some 1%nat)
            (OpGetPipeResult "app" "users" [] 0%N) (start sample_heap)))
  = [mgo.ev (mgo.Copy 1%N);
     mgo.ev (mgo.Pipe (mgo.DB_C 2%N "app" "users") []);
     mgo.ev (mgo.PipeAll 9%N 0%N);
     mgo.ev (mgo.Close 2%N)] /\
  exists mid,
    new_events (start sample_heap)
      (snd (PerClient_run (scripted up) (Some 1%nat)
              (OpGetPipeResult "app" "users" [] 0%N) (start sample_heap)))
    = mgo.ev (mgo.Copy 1%N) :: (mid ++ [mgo.ev (mgo.Close 2%N)])%list /\
    Forall (fun e => session_call e = false) mid.
Proof.
  split; [reflexivity|].
  exact (proj1 (session_copy_released (scripted up)
                  (OpGetPipeResult "app" "users" [] 0%N)
                  (start sample_heap) 1
                  {| PerClient.host := "db.example.org:27017";
                     PerClient.session := Some 1%N;
                     PerClient.connErr := None |}
                  (start None) 1%N 2%N tt
                  eq_refl eq_refl eq_refl eq_refl eq_refl eq_refl)).
Defined.

(** ** One call to the server *)

(** No retries: whatever the driver answers, and whatever the handle and
    the sticky error are, a facade method of either package sends at most
    one query or mutation to the server. *)
Theorem at_most_one_server_call {W} (h : mgo.Handler W) (op : Op)
    (c : option nat) (stP : State W (list PerClient.Client))
    (cG : option Global.Client) (stG : State W (option Error)) :
  (length (List.filter terminal
             (new_events stP (snd (PerClient_run h c op stP)))) <= 1)%nat /\
  (length (List.filter terminal
             (new_events stG (snd (Global_run h cG op stG)))) <= 1)%nat.
Proof.
  destruct stP as [wP tP mP], stG as [wG tG mG]. split.
  - destruct op; cbn [PerClient_run]; unfold_methods; unfold_run;
      repeat first [ answer h | case_option | case_bool ];
      read_events; lia.
  - destruct cG as [[s]|];
      (destruct op; cbn [Global_run]; unfold_methods; unfold_run;
       repeat first [ answer h | case_option | case_bool ];
       read_events; lia).
Qed.

(** Against a driver that does not panic, on a handle without sticky
    error, each facade method of either package sends exactly one query or
    mutation to the server, and it is the one of its kind: [One] for
    [GetRow], [All] for [GetResult], [Count] for [GetCount], [Apply] for
    [FindAndModify] and [FindAndRemove], and so on. *)
Theorem one_server_call {W} (h : mgo.Handler W) (op : Op)
    (stP : State W (list PerClient.Client)) (p : nat) (cl : PerClient.Client)
    (stG : State W (option Error)) (s0 : mgo.Session) :
  never_panics h ->
  mem stP !! p = Some cl ->
  PerClient.connErr cl = None ->
  PerClient.session cl = Some s0 ->
  mem stG = None ->
  (exists e,
     List.filter terminal (new_events stP (snd (PerClient_run h (Some p) op stP))) = [e] /\
     terminal_of op e = true) /\
  (exists e,
     List.filter terminal
       (new_events stG (snd (Global_run h (Some {| Global.session := Some s0 |}) op stG)))
       = [e] /\
     terminal_of op e = true).
Proof.
  destruct stP as [wP tP mP], stG as [wG tG mG]. cbn [world trace mem].
  intros NP Hp He Hs ->. split.
  - destruct op; cbn [PerClient_run]; unfold_methods; unfold_run;
      rewrite Hp; unfold_run; rewrite He, Hs; unfold_run;
      repeat first [ answer_np h NP | case_option | case_bool ];
      read_events; eexists; split; reflexivity.
  - destruct op; cbn [Global_run]; unfold_methods; unfold_run;
      repeat first [ answer_np h NP | case_option | case_bool ];
      read_events; eexists; split; reflexivity.
Qed.

Lemma one_server_call_witness :
  exists e,
    List.filter terminal
      (new_events (start sample_heap)
         (snd (PerClient_run (scripted lenient) (Some 1%nat)
                 (OpFindAndModify "app" "users" ∅ ∅ true 1%N) (start sample_heap))))
      = [e] /\
    terminal_of (OpFindAndModify "app" "users" ∅ ∅ true 1%N) e = true.
Proof.
  exact (proj1 (one_server_call (scripted lenient)
                  (OpFindAndModify "app" "users" ∅ ∅ true 1%N)
                  (start sample_heap) 1
                  {| PerClient.host := "db.example.org:27017";
                     PerClient.session := Some 1%N;
                     PerClient.connErr := None |}
                  (start None) 1%N
                  (scripted_never_panics lenient eq_refl)
                  eq_refl eq_refl eq_refl eq_refl)).
Defined.

(** ** Where a returned error comes from *)

Ltac from_driver h Herr :=
  right;
  match goal with
  | H : h ?R ?c ?w = (Ret ?a, ?w') |- _ =>
      exists R, c, w, a, w'; split; [exact H | split; [exact Herr | reflexivity]]
  end.

(** The facade invents no error.  When a facade method returns a non-nil
    error, that error is either the sticky error, or the very error the
    driver answered to the one query or mutation of the method: it is
    passed on as it is, neither wrapped nor replaced. *)
Theorem errors_pass_through {W} (h : mgo.Handler W) (op : Op) :
  (forall (c : option nat) (st : State W (list PerClient.Client)) r e,
     fst (PerClient_run h c op st) = Ret r ->
     result_err r = Some e ->
     (exists p cl, c = Some p /\ mem st !! p = Some cl /\
                   PerClient.connErr cl = Some e) \/
     (exists R (call : mgo.Call R) w ans w',
        h R call w = (Ret ans, w') /\ err_of call ans = Some e /\
        terminal_of op (mgo.ev call) = true)) /\
  (forall (c : option Global.Client) (st : State W (option Error)) r e,
     fst (Global_run h c op st) = Ret r ->
     result_err r = Some e ->
     mem st = Some e \/
     (exists R (call : mgo.Call R) w ans w',
        h R call w = (Ret ans, w') /\ err_of call ans = Some e /\
        terminal_of op (mgo.ev call) = true)).
Proof.
  split.
  - intros c [w t m] r e.
    destruct c as [p|]; [|destruct op; intros H; discriminate H].
    destruct (m !! p) as [cl|] eqn:Hp;
      [|destruct op; cbn [PerClient_run]; unfold_methods; unfold_run;
        rewrite Hp; intros H; discriminate H].
    destruct (PerClient.connErr cl) as [e0|] eqn:Hce.
    + destruct op; cbn [PerClient_run]; unfold_methods; unfold_run;
        rewrite Hp; unfold_run; rewrite Hce; unfold_run;
        intros H Herr; injection H as <-; cbn in Herr;
        left; exists p, cl; cbn; rewrite Hce; auto.
    + destruct op; cbn [PerClient_run]; unfold_methods; unfold_run;
        rewrite Hp; unfold_run; rewrite Hce; unfold_run;
        repeat first [ answer_eq h | case_option | case_bool ];
        intros H Herr; try discriminate H; injection H as <-;
        cbn in Herr; try discriminate Herr;
        from_driver h Herr.
  - intros c [w t m] r e.
    destruct m as [e0|].
    + destruct op; cbn [Global_run]; unfold_methods; unfold_run;
        intros H Herr; injection H as <-; cbn in Herr; left; exact Herr.
    + destruct c as [[s]|];
        (destruct op; cbn [Global_run]; unfold_methods; unfold_run;
         repeat first [ answer_eq h | case_option | case_bool ];
         intros H Herr; try discriminate H; injection H as <-;
         cbn in Herr; try discriminate Herr;
         from_driver h Herr).
Qed.

Lemma errors_pass_through_witness :
  (exists p cl, Some 1%nat = Some p /\ mem (start sample_heap) !! p = Some cl /\
                PerClient.connErr cl = Some "EOF") \/
  (exists R (call : mgo.Call R) w ans w',
     scripted failing R call w = (Ret ans, w') /\ err_of call ans = Some "EOF" /\
     terminal_of (OpInsert "app" "users" [mgo.VInt 1]) (mgo.ev call) = true).
Proof.
  exact (proj1 (errors_pass_through (scripted failing)
                  (OpInsert "app" "users" [mgo.VInt 1]))
           (Some 1%nat) (start sample_heap) (RError (Some "EOF")) "EOF"
           eq_refl eq_refl).
Defined.

(** ** The handle Conn returns *)

(** Whenever the per-client [Conn] returns, for any driver and any
    [url.Parse]: the handle is not nil and is a fresh address, the handles
    that existed are untouched, the address parsed as a URL, and the new
    handle is of one of two kinds.  Either [Dial] answered an error: the
    handle holds the sticky error made of the URL's host and the message of
    that very error, no session, and [Dial] was the only driver call.  Or
    [Dial] answered a session and no error: the handle holds that very
    session and the URL's host, no sticky error, and the only driver calls
    were [Dial] and the setting of the socket timeout of that session to 24
    hours. *)
Theorem PerClient_Conn_handle {W} (h : mgo.Handler W)
    (url_Parse : string -> option URL * option Error) (urlAddr : string)
    (st st' : State W (list PerClient.Client)) (c : option nat) :
  PerClient.Conn h url_Parse urlAddr st = (Ret c, st') ->
  c = Some (length (mem st)) /\
  exists u cl,
    fst (url_Parse urlAddr) = Some u /\
    mem st' = (mem st ++ [cl])%list /\
    ((exists sopt err,
        h _ (mgo.Dial urlAddr) (world st) = (Ret (sopt, Some err), world st') /\
        cl = {| PerClient.host := EmptyString; PerClient.session := None;
                PerClient.connErr := Some (wrap_error (Host u) err) |} /\
        new_events st st' = [mgo.ev (mgo.Dial urlAddr)]) \/
     (exists s w1,
        h _ (mgo.Dial urlAddr) (world st) = (Ret (Some s, None), w1) /\
        h _ (mgo.SetSocketTimeout s 86400000000000) w1 = (Ret tt, world st') /\
        cl = {| PerClient.host := Host u; PerClient.session := Some s;
                PerClient.connErr := None |} /\
        new_events st st' =
          [mgo.ev (mgo.Dial urlAddr);
           mgo.ev (mgo.SetSocketTimeout s 86400000000000)])).
Proof.
  destruct st as [w t m]. cbn [mem world].
  unfold PerClient.Conn, PerClient.alloc.
  destruct (url_Parse urlAddr) as [[u|] pe]; unfold_run;
    repeat first [ answer_eq h | case_option ];
    intros H; try discriminate H; injection H as <- <-;
    (split; [reflexivity|]);
    exists u; eexists; (split; [reflexivity|]);
    rewrite insert_fresh; (split; [reflexivity|]);
    cbn [world];
    first [ left; do 2 eexists; split; [reflexivity|];
            split; [reflexivity|]; read_events; reflexivity
          | right;
            match goal with a : unit |- _ => destruct a end;
            do 2 eexists; split; [reflexivity|];
            split; [match goal with E : h _ _ _ = _ |- _ => exact E end|];
            split; [reflexivity|]; read_events; reflexivity ].
Qed.

Lemma PerClient_Conn_handle_witness :
  fst (PerClient.Conn (scripted down) sample_url_Parse
         "mongodb://db.example.org:27017/app" (start sample_heap)) = Ret (Some 2%nat) /\
  exists u cl,
    fst (sample_url_Parse "mongodb://db.example.org:27017/app") = Some u /\
    mem (snd (PerClient.Conn (scripted down) sample_url_Parse
                "mongodb://db.example.org:27017/app" (start sample_heap)))
      = (sample_heap ++ [cl])%list.
Proof.
  split; [reflexivity|].
  destruct (PerClient_Conn_handle (scripted down) sample_url_Parse
              "mongodb://db.example.org:27017/app" (start sample_heap) _ _ eq_refl)
    as [_ [u [cl [Hu [Hm _]]]]].
  exists u, cl. split; [exact Hu | exact Hm].
Defined.

(** Whenever the [Conn] of [src/mongo.go] returns, for any driver: either
    the handle is nil and the process-wide sticky error is set, or the
    handle holds a session, the sticky error is nil, whatever it was
    before, and the driver calls were [Dial] and the setting of the socket
    timeout to 24 hours.  [Conn] itself panics in one case only, with the
    failed conversion [r.(error)]: when the driver panicked with a value
    that is not an error. *)
Theorem Global_Conn_handle {W} (h : mgo.Handler W) (url : string)
    (st : State W (option Error)) :
  (forall c st',
     Global.Conn h url st = (Ret c, st') ->
     (c = None /\ exists e, mem st' = Some e) \/
     (exists s, c = Some {| Global.session := Some s |} /\ mem st' = None /\
                new_events st st' =
                  [mgo.ev (mgo.Dial url);
                   mgo.ev (mgo.SetSocketTimeout s 86400000000000)])) /\
  (forall pv st',
     Global.Conn h url st = (Panic pv, st') ->
     pv = bad_conversion /\
     exists R (call : mgo.Call R) w msg w',
       h R call w = (Panic (PVString msg), w')).
Proof.
  destruct st as [w t m].
  unfold Global.Conn, Global.Conn_body. split.
  - intros c st'. unfold_run.
    repeat first [ answer_eq h | case_option ];
      try match goal with p : PanicVal |- _ => destruct p; unfold_run end;
      intros H; try discriminate H; injection H as <- <-;
      first [ left; split; [reflexivity|]; eexists; reflexivity
            | right; eexists; split; [reflexivity|]; split; [reflexivity|];
              read_events; reflexivity ].
  - intros pv st'. unfold_run.
    repeat first [ answer_eq h | case_option ];
      try match goal with p : PanicVal |- _ => destruct p; unfold_run end;
      intros H; try discriminate H; injection H as <- <-;
      (split; [reflexivity|]);
      match goal with
      | E : h ?R ?c ?w0 = (Panic (PVString ?msg), ?w') |- _ =>
          exists R, c, w0, msg, w'; exact E
      end.
Qed.

Lemma Global_Conn_handle_witness :
  let st' := snd (Global.Conn (scripted down) "127.0.0.1:27017" (start None)) in
  (@None Global.Client = None /\ exists e, mem st' = Some e) \/
  (exists s, None = Some {| Global.session := Some s |} /\ mem st' = None /\
             new_events (start None) st' =
               [mgo.ev (mgo.Dial "127.0.0.1:27017");
                mgo.ev (mgo.SetSocketTimeout s 86400000000000)]).
Proof.
  exact (proj1 (Global_Conn_handle (scripted down) "127.0.0.1:27017" (start None))
           None _ eq_refl).
Defined.

(** ** After a failed connect or a failed ping *)

(** A connect that fails, then any sequence of facade calls.  In the
    per-client package, on an address that parses as a URL, every call on
    the returned handle gives back the error made of the host and the dial
    message; in [src/mongo.go] every call on any handle, also one obtained
    from an earlier successful [Conn], gives back the dial error itself.  In
    both, [Dial] remains the only driver call ever made. *)
Theorem failed_Conn_then_ops {W} (h : mgo.Handler W)
    (url_Parse : string -> option URL * option Error) (urlAddr : string)
    (ops : list Op) (stP : State W (list PerClient.Client))
    (stG : State W (option Error)) (cG : option Global.Client)
    (u : URL) (s : option mgo.Session) (err : Error) (w' : W) :
  fst (url_Parse urlAddr) = Some u ->
  world stG = world stP ->
  h _ (mgo.Dial urlAddr) (world stP) = (Ret (s, Some err), w') ->
  (let* c := PerClient.Conn h url_Parse urlAddr in
   run_seq (PerClient_run h c) ops) stP =
    (Ret (map (fun op => short_circuit_result op (Some (wrap_error (Host u) err))) ops),
     {| world := w';
        trace := (trace stP ++ [mgo.ev (mgo.Dial urlAddr)])%list;
        mem := (mem stP ++ [ {| PerClient.host := EmptyString;
                                PerClient.session := None;
                                PerClient.connErr := Some (wrap_error (Host u) err) |} ])%list |}) /\
  (let* _ := Global.Conn h urlAddr in
   run_seq (Global_run h cG) ops) stG =
    (Ret (map (fun op => short_circuit_result op (Some err)) ops),
     {| world := w';
        trace := (trace stG ++ [mgo.ev (mgo.Dial urlAddr)])%list;
        mem := Some err |}).
Proof.
  intros Hu Hw Hd. split.
  - unfold bind at 1. rewrite (PerClient_Conn_dial_fails h url_Parse urlAddr stP u s err w' Hu Hd).
    apply run_seq_fixed. intros op.
    eapply PerClient_short_circuit;
      [ cbn [mem]; now apply list_lookup_middle | reflexivity ].
  - rewrite <- Hw in Hd.
    unfold bind at 1. rewrite (Global_Conn_dial_fails h urlAddr stG s err w' Hd).
    apply run_seq_fixed. intros op. now apply Global_short_circuit.
Qed.

Lemma failed_Conn_then_ops_witness :
  fst ((let* c := PerClient.Conn (scripted down) sample_url_Parse
                    "mongodb://db.example.org:27017/app" in
        run_seq (PerClient_run (scripted down) c) sample_ops) (start []))
    = Ret (map (fun op => short_circuit_result op
                  (Some "host: db.example.org:27017 error: no reachable servers"))
             sample_ops).
Proof.
  exact (f_equal fst
           (proj1 (failed_Conn_then_ops (scripted down) sample_url_Parse
                     "mongodb://db.example.org:27017/app" sample_ops
                     (start []) (start None) None
                     {| Host := "db.example.org:27017" |} None
                     "no reachable servers" tt eq_refl eq_refl eq_refl))).
Defined.

Lemma PerClient_Ping_fails {W} (h : mgo.Handler W)
    (st : State W (list PerClient.Client)) (p : nat) (cl : PerClient.Client)
    (s0 s : mgo.Session) (e : Error) (w1 w2 w3 : W) :
  mem st !! p = Some cl ->
  PerClient.connErr cl = None ->
  PerClient.session cl = Some s0 ->
  h _ (mgo.Copy s0) (world st) = (Ret s, w1) ->
  h _ (mgo.Ping s) w1 = (Ret (Some e), w2) ->
  h _ (mgo.Close s) w2 = (Ret tt, w3) ->
  PerClient.Ping h (Some p) st =
    (Ret (Some (wrap_error (PerClient.host cl) e)),
     {| world := w3;
        trace := (trace st ++ [mgo.ev (mgo.Copy s0); mgo.ev (mgo.Ping s);
                               mgo.ev (mgo.Close s)])%list;
        mem := <[p := {| PerClient.host := PerClient.host cl;
                         PerClient.session := PerClient.session cl;
                         PerClient.connErr :=
                           Some (wrap_error (PerClient.host cl) e) |}]> (mem st) |}).
Proof.
  destruct st as [w t m]. cbn [world trace mem]. intros Hp He Hs Hc Hping Hclose.
  assert (Hlt : (p < length m)%nat) by (eapply lookup_lt_Some; eauto).
  unfold PerClient.Ping. unfold_run. rewrite Hp. unfold_run.
  rewrite He, Hs. unfold_run. rewrite Hc. unfold_run. rewrite Hping. unfold_run.
  rewrite list_lookup_insert_eq by exact Hlt. unfold_run.
  rewrite Hclose. now rewrite <- !app_assoc.
Qed.

(** A ping that fails poisons the handle.  After the per-client [Ping]
    has failed on a handle that had no sticky error, every facade call on
    that handle gives back the error made of the handle's host and the ping
    message, and makes no driver call: the three calls of [Ping] remain the
    only ones. *)
Theorem failed_Ping_then_ops {W} (h : mgo.Handler W) (ops : list Op)
    (st : State W (list PerClient.Client)) (p : nat) (cl : PerClient.Client)
    (s0 s : mgo.Session) (e : Error) (w1 w2 w3 : W) :
  mem st !! p = Some cl ->
  PerClient.connErr cl = None ->
  PerClient.session cl = Some s0 ->
  h _ (mgo.Copy s0) (world st) = (Ret s, w1) ->
  h _ (mgo.Ping s) w1 = (Ret (Some e), w2) ->
  h _ (mgo.Close s) w2 = (Ret tt, w3) ->
  (let* _ := PerClient.Ping h (Some p) in
   run_seq (PerClient_run h (Some p)) ops) st =
    (Ret (map (fun op => short_circuit_result op
                 (Some (wrap_error (PerClient.host cl) e))) ops),
     {| world := w3;
        trace := (trace st ++ [mgo.ev (mgo.Copy s0); mgo.ev (mgo.Ping s);
                               mgo.ev (mgo.Close s)])%list;
        mem := <[p := {| PerClient.host := PerClient.host cl;
                         PerClient.session := PerClient.session cl;
                         PerClient.connErr :=
                           Some (wrap_error (PerClient.host cl) e) |}]> (mem st) |}).
Proof.
  intros Hp He Hs Hc Hping Hclose.
  unfold bind at 1.
  rewrite (PerClient_Ping_fails h st p cl s0 s e w1 w2 w3 Hp He Hs Hc Hping Hclose).
  apply run_seq_fixed. intros op.
  eapply PerClient_short_circuit;
    [ cbn [mem]; apply list_lookup_insert_eq; eapply lookup_lt_Some; eauto
    | reflexivity ].
Qed.

Lemma failed_Ping_then_ops_witness :
  fst ((let* _ := PerClient.Ping (scripted failing) (Some 1%nat) in
        run_seq (PerClient_run (scripted failing) (Some 1%nat)) sample_ops)
         (start sample_heap))
    = Ret (map (fun op => short_circuit_result op
                  (Some "host: db.example.org:27017 error: EOF")) sample_ops).
Proof.
  exact (f_equal fst
           (failed_Ping_then_ops (scripted failing) sample_ops (start sample_heap) 1
              {| PerClient.host := "db.example.org:27017";
                 PerClient.session := Some 1%N;
                 PerClient.connErr := None |}
              1%N 2%N "EOF" tt tt tt
              eq_refl eq_refl eq_refl eq_refl eq_refl eq_refl)).
Defined.

(** ** Where a returned count comes from *)

Ltac from_change_info h :=
  match goal with
  | H : h _ ?c ?w = (Ret (Some ?info, None), ?w') |- _ =>
      exists c, w, info, w';
      split; [exact H | split; [reflexivity | split; reflexivity]]
  end.

(** A panic in the run: a driver call that panicked, or the method's own
    mutation answered with neither a result nor an error, whose result is
    then dereferenced. *)
Ltac from_panic h :=
  first
    [ match goal with
      | H : h ?R ?c ?w = (Panic ?pv, ?w') |- _ =>
          left; exists R, c, w, pv, w'; exact H
      end
    | match goal with
      | H : h _ ?c ?w = (Ret (None, None), ?w') |- _ =>
          right; exists c, w, w'; split; [exact H | reflexivity]
      end ].

(** The count that [RemoveAll], [FindAndModify] or [FindAndRemove] returns
    next to a nil error is a field of the driver's answer to the one
    mutation the method sent: [Removed] for [RemoveAll] and [FindAndRemove],
    [Updated] for [FindAndModify]; and the change that was sent is the
    method's own ([FindAndModify] asks for the update with the caller's
    upsert flag and for the new document, [FindAndRemove] for a removal).
    The exception, in [FindAndModify] and [FindAndRemove] of
    [src/mongo.go] only: count 0 with a nil error after a recovered panic,
    that is, when a driver call panicked or the driver answered the
    mutation with neither a result nor an error. *)
Theorem counts_come_from_driver {W} (h : mgo.Handler W) (op : Op) :
  counting op = true ->
  (forall (c : option nat) (st : State W (list PerClient.Client)) n,
     fst (PerClient_run h c op st) = Ret (RCount n None) ->
     exists (call : mgo.Call (option mgo.ChangeInfo * option Error)) w info w',
       h _ call w = (Ret (Some info, None), w') /\
       terminal_of op (mgo.ev call) = true /\
       apply_change call = change_of op /\
       n = count_field op info) /\
  (forall (c : option Global.Client) (st : State W (option Error)) n,
     fst (Global_run h c op st) = Ret (RCount n None) ->
     (exists (call : mgo.Call (option mgo.ChangeInfo * option Error)) w info w',
        h _ call w = (Ret (Some info, None), w') /\
        terminal_of op (mgo.ev call) = true /\
        apply_change call = change_of op /\
        n = count_field op info) \/
     (recovers op = true /\ n = 0 /\
      ((exists R (call : mgo.Call R) w pv w', h R call w = (Panic pv, w')) \/
       (exists (call : mgo.Call (option mgo.ChangeInfo * option Error)) w w',
          h _ call w = (Ret (None, None), w') /\
          terminal_of op (mgo.ev call) = true)))).
Proof.
  intros Hop. split.
  - intros c [w t m] n.
    destruct op; try discriminate Hop; cbn [PerClient_run];
      unfold_methods; unfold_run;
      repeat first [ answer_eq h | case_option ];
      intros H; try discriminate H; injection H as <-;
      from_change_info h.
  - intros c [w t m] n.
    destruct c as [[s]|];
      (destruct op; try discriminate Hop; cbn [Global_run];
       unfold_methods; unfold_run;
       repeat first [ answer_eq h | case_option ];
       intros H; try discriminate H; injection H as <-;
       first [ left; from_change_info h
             | right; split; [reflexivity|]; split; [reflexivity|]; from_panic h ]).
Qed.

Lemma counts_come_from_driver_witness :
  fst (PerClient_run (scripted up) (Some 1%nat)
         (OpFindAndModify "app" "users" ∅ ∅ true 1%N) (start sample_heap))
    = Ret (RCount 2 None) /\
  exists (call : mgo.Call (option mgo.ChangeInfo * option Error)) w info w',
    scripted up _ call w = (Ret (Some info, None), w') /\
    terminal_of (OpFindAndModify "app" "users" ∅ ∅ true 1%N) (mgo.ev call) = true /\
    apply_change call = change_of (OpFindAndModify "app" "users" ∅ ∅ true 1%N) /\
    2 = count_field (OpFindAndModify "app" "users" ∅ ∅ true 1%N) info.
Proof.
  split; [reflexivity|].
  exact (proj1 (counts_come_from_driver (scripted up)
                  (OpFindAndModify "app" "users" ∅ ∅ true 1%N) eq_refl)
           (Some 1%nat) (start sample_heap) 2 eq_refl).
Defined.

(** ** Handles do not interfere *)

(** In the per-client package a facade call depends on its own handle
    only: run in two states with the same driver world in which that handle
    holds the same struct, whatever the other handles hold, it returns the
    same result or panic, leaves the same driver world and makes the same
    driver calls. *)
Theorem handle_isolation {W} (h : mgo.Handler W) (op : Op) (p : nat)
    (st1 st2 : State W (list PerClient.Client)) :
  world st1 = world st2 ->
  mem st1 !! p = mem st2 !! p ->
  fst (PerClient_run h (Some p) op st1) = fst (PerClient_run h (Some p) op st2) /\
  world (snd (PerClient_run h (Some p) op st1))
    = world (snd (PerClient_run h (Some p) op st2)) /\
  new_events st1 (snd (PerClient_run h (Some p) op st1))
    = new_events st2 (snd (PerClient_run h (Some p) op st2)).
Proof.
  destruct st1 as [w1 t1 m1], st2 as [w2 t2 m2]. cbn [world mem].
  intros -> Hm.
  destruct op; cbn [PerClient_run]; unfold_methods; unfold_run; rewrite Hm;
    repeat first [ answer h | case_option | case_bool ];
    (split; [reflexivity|]); (split; [reflexivity|]);
    unfold new_events; cbn [snd trace];
    rewrite <- ?app_assoc, ?drop_app_length, ?drop_all; reflexivity.
Qed.

Lemma handle_isolation_witness :
  fst (PerClient_run (scripted up) (Some 1%nat) (OpGetCount "app" "users" ∅)
         (start sample_heap))
  = fst (PerClient_run (scripted up) (Some 1%nat) (OpGetCount "app" "users" ∅)
           (start [PerClient.zero_Client;
                   {| PerClient.host := "db.example.org:27017";
                      PerClient.session := Some 1%N;
                      PerClient.connErr := None |};
                   PerClient.zero_Client])).
Proof.
  exact (proj1 (handle_isolation (scripted up) (OpGetCount "app" "users" ∅) 1
                  (start sample_heap)
                  (start [PerClient.zero_Client;
                          {| PerClient.host := "db.example.org:27017";
                             PerClient.session := Some 1%N;
                             PerClient.connErr := None |};
                          PerClient.zero_Client])
                  eq_refl eq_refl)).
Defined.
